(** * Verification of [tuning/trackers/aimstack_tracker.py]

    A shallow embedding of the Aimstack tracker of fms-hf-tuning:

    - [RunIDExporterAimCallback.on_init_end], which exports the hash of the
      Aim run to [<dir>/aimstack_tracker.json];
    - [AimStackTracker.get_hf_callback], [AimStackTracker.track] and
      [AimStackTracker.set_params].

    Python objects live in a store and are addressed by reference, so that
    the callback kept in [AimStackTracker.hf_callback] and the callback the
    trainer calls are one object.  Methods are computations in a state and
    exception monad over a [World] made of the object store, the file
    system, the records handed to [logging] and the calls received by the
    Aim client. *)

From Stdlib Require Import Ascii String ZArith.
From stdpp Require Import gmap strings list.

Open Scope string_scope.
Open Scope list_scope.
Set Warnings "-register-all".

(** * Python values *)

(** The values that cross the tracker's interface: metrics, names, stages
    and parameter dictionaries.  A float is [mantissa * 2 ^ exponent]; the
    code passes numbers on and never computes with them.  A Python [dict]
    keeps its items in insertion order, which is the order [items()]
    yields them in. *)
Inductive PyVal : Type :=
| PyNone
| PyBool (b : bool)
| PyInt (n : Z)
| PyFloat (mantissa exponent : Z)
| PyStr (s : string)
| PyList (xs : list PyVal)
| PyDict (items : list (PyVal * PyVal)).

(** [v is None] *)
Definition is_None (v : PyVal) : bool :=
  match v with PyNone => true | _ => false end.

(** [isinstance(v, dict)] *)
Definition isinstance_dict (v : PyVal) : bool :=
  match v with PyDict _ => true | _ => false end.

(** Truth value of an optional [str]: [None] and the empty string are
    false, every other string is true. *)
Definition truthy (o : option string) : bool :=
  match o with
  | None => false
  | Some s => negb (String.eqb s "")
  end.

(** Exceptions raised by the code or by the library calls it makes. *)
Inductive OSErrorKind : Type :=
| FileNotFoundError
| FileExistsError
| NotADirectoryError
| IsADirectoryError.

Inductive exn : Type :=
| ValueError (msg : string)
| AttributeError (msg : string)
| TypeError (msg : string)
| OSError (kind : OSErrorKind) (path : string)
| ReferenceError (ref : nat).
(* [ReferenceError] is the use of a reference that names no object of the
   store; a Python program has no such reference. *)

(** Outcome of a call: a value, or an exception that propagates. *)
Inductive result (A : Type) : Type :=
| Ok (a : A)
| Raised (e : exn).
Arguments Ok {A} a.
Arguments Raised {A} e.

(** * [os.path] on POSIX path strings *)

Module posixpath.

Definition sep : ascii := "/"%char.

Definition startswith_sep (s : string) : bool :=
  match s with
  | String c _ => Ascii.eqb c sep
  | EmptyString => false
  end.

Fixpoint endswith_sep (s : string) : bool :=
  match s with
  | EmptyString => false
  | String c EmptyString => Ascii.eqb c sep
  | String _ s' => endswith_sep s'
  end.

(** [os.path.join(a, b)]: [b] alone when it is absolute, else [a] and
    [b] with exactly one separator between them, none after an empty
    [a]. *)
Definition join (a b : string) : string :=
  if startswith_sep b then b
  else if String.eqb a "" || endswith_sep a then a +:+ b
  else a +:+ String sep b.

(** The pieces of a path between separators; never an empty list. *)
Fixpoint split_sep (s : string) : list string :=
  match s with
  | EmptyString => [EmptyString]
  | String c s' =>
      if Ascii.eqb c sep then EmptyString :: split_sep s'
      else match split_sep s' with
           | h :: t => String c h :: t
           | [] => [String c EmptyString]
           end
  end.

(** A piece that names a directory entry: not empty (doubled or trailing
    separator) and not [.]. *)
Definition is_name (c : string) : bool :=
  negb (String.eqb c "") && negb (String.eqb c ".").

(** The location a path string names: its entry names from the root
    (first component [/]) or from the working directory.  The empty
    string names nothing.  Symbolic links and [..] are not interpreted. *)
Definition resolve (p : string) : option (list string) :=
  if String.eqb p "" then None
  else Some ((if startswith_sep p then ["/"] else [])
               ++ List.filter is_name (split_sep p))%list.

End posixpath.

(** * The file system *)

(** The calls of [os] and [open] the code makes, on a POSIX file system
    of directories and regular files that no other process changes;
    permissions and symbolic links are left out. *)

Inductive Entry : Type :=
| Directory
| RegularFile (content : string).

(** Entries by location.  The root and the working directory are always
    there and are not stored. *)
Abbreviation FS := (gmap (list string) Entry).

Module os.

Definition stat (fs : FS) (loc : list string) : option Entry :=
  match loc with
  | [] => Some Directory
  | [r] => if String.eqb r "/" then Some Directory else fs !! loc
  | _ => fs !! loc
  end.

(** [os.path.exists(p)] *)
Definition path_exists (fs : FS) (p : string) : bool :=
  match posixpath.resolve p with
  | None => false
  | Some loc => match stat fs loc with Some _ => true | None => false end
  end.

(** [os.path.isdir(p)] *)
Definition path_isdir (fs : FS) (p : string) : bool :=
  match posixpath.resolve p with
  | None => false
  | Some loc =>
      match stat fs loc with Some Directory => true | _ => false end
  end.

(** Content of the regular file at [p], if there is one. *)
Definition read_file (fs : FS) (p : string) : option string :=
  match posixpath.resolve p with
  | None => None
  | Some loc =>
      match stat fs loc with
      | Some (RegularFile c) => Some c
      | _ => None
      end
  end.

(** Creation of the directories [pre ++ [c1]], [pre ++ [c1; c2]], ... in
    turn.  A directory found on the way is kept ([exist_ok=True]); a
    regular file on the way is an error, and the directories made before
    it stay. *)
Fixpoint makedirs_from (p : string) (pre rest : list string) (fs : FS)
  : FS * result unit :=
  match rest with
  | [] => (fs, Ok tt)
  | c :: rest' =>
      let loc := (pre ++ [c])%list in
      match stat fs loc with
      | None => makedirs_from p loc rest' (<[loc := Directory]> fs)
      | Some Directory => makedirs_from p loc rest' fs
      | Some (RegularFile _) =>
          (fs, Raised (OSError (match rest' with
                                | [] => FileExistsError
                                | _ => NotADirectoryError
                                end) p))
      end
  end.

(** [os.makedirs(p, exist_ok=True)] *)
Definition makedirs (p : string) (fs : FS) : FS * result unit :=
  match posixpath.resolve p with
  | None => (fs, Raised (OSError FileNotFoundError p))
  | Some loc => makedirs_from p [] loc fs
  end.

(** [open(p, "w")]: the file is created, or emptied when it exists, in a
    directory that exists.  The result is the handle of the open file,
    its location. *)
Definition open_w (p : string) (fs : FS) : FS * result (list string) :=
  match posixpath.resolve p with
  | None => (fs, Raised (OSError FileNotFoundError p))
  | Some loc =>
      match stat fs (removelast loc) with
      | None => (fs, Raised (OSError FileNotFoundError p))
      | Some (RegularFile _) => (fs, Raised (OSError NotADirectoryError p))
      | Some Directory =>
          match stat fs loc with
          | Some Directory => (fs, Raised (OSError IsADirectoryError p))
          | _ => (<[loc := RegularFile ""]> fs, Ok loc)
          end
      end
  end.

(** [f.write(s)] on a handle opened for writing: [s] goes after what
    was written through the handle so far. *)
Definition write (f : list string) (s : string) (fs : FS) : FS :=
  match fs !! f with
  | Some (RegularFile c) => <[f := RegularFile (c +:+ s)]> fs
  | _ => fs
  end.

End os.

(** * [json.dumps] on dictionaries of strings *)

(** Python's encoder with its defaults ([ensure_ascii=True], separators
    [", "] and [": "]), for strings of code points below 256. *)
Module json.

Definition dquote : ascii := "034"%char.
Definition backslash : ascii := "\"%char.

Definition hex_digit (n : N) : ascii :=
  ascii_of_N (if (n <? 10)%N then 48 + n else 87 + n)%N.

(** The four hexadecimal digits of a code point below 256. *)
Definition hex4 (c : ascii) : string :=
  let n := N_of_ascii c in
  String "0" (String "0" (String (hex_digit (n / 16))
                            (String (hex_digit (n mod 16)) ""))).

(** What the encoder puts for one character ([ensure_ascii=True]): the
    printable ASCII characters stand for themselves, except the quote
    and the backslash; the others are escaped. *)
Definition escape (c : ascii) : string :=
  if Ascii.eqb c dquote then String backslash (String dquote "")
  else if Ascii.eqb c backslash then String backslash (String backslash "")
  else if Ascii.eqb c "010" then String backslash "n"
  else if Ascii.eqb c "013" then String backslash "r"
  else if Ascii.eqb c "009" then String backslash "t"
  else if Ascii.eqb c "008" then String backslash "b"
  else if Ascii.eqb c "012" then String backslash "f"
  else if (N_of_ascii c <? 32)%N || (126 <? N_of_ascii c)%N
       then String backslash (String "u" (hex4 c))
  else String c "".

Fixpoint escape_all (s : string) : string :=
  match s with
  | EmptyString => EmptyString
  | String c s' => escape c +:+ escape_all s'
  end.

(** A string as a JSON string literal. *)
Definition encode_str (s : string) : string :=
  String dquote (escape_all s +:+ String dquote "").

Definition encode_item (kv : string * string) : string :=
  encode_str kv.1 +:+ ": " +:+ encode_str kv.2.

Fixpoint encode_items (kvs : list (string * string)) : string :=
  match kvs with
  | [] => ""
  | [kv] => encode_item kv
  | kv :: kvs' => encode_item kv +:+ ", " +:+ encode_items kvs'
  end.

(** [json.dumps(d)] for a [dict] [d] whose keys and values are [str],
    with the default separators. *)
Definition dumps (d : list (string * string)) : string :=
  "{" +:+ encode_items d +:+ "}".

(** ** Reading an object of strings back *)

(** The value of a hexadecimal digit, in either case. *)
Definition hex_value (c : ascii) : option N :=
  let n := N_of_ascii c in
  if (48 <=? n)%N && (n <=? 57)%N then Some (n - 48)%N
  else if (97 <=? n)%N && (n <=? 102)%N then Some (n - 87)%N
  else if (65 <=? n)%N && (n <=? 70)%N then Some (n - 55)%N
  else None.

(** The character a two-character escape stands for. *)
Definition unescape (e : ascii) : option ascii :=
  if Ascii.eqb e dquote then Some dquote
  else if Ascii.eqb e backslash then Some backslash
  else if Ascii.eqb e "/" then Some "/"%char
  else if Ascii.eqb e "n" then Some "010"%char
  else if Ascii.eqb e "r" then Some "013"%char
  else if Ascii.eqb e "t" then Some "009"%char
  else if Ascii.eqb e "b" then Some "008"%char
  else if Ascii.eqb e "f" then Some "012"%char
  else None.

(** [c] put in front of what the rest of a literal decodes to. *)
Definition cons_char (c : ascii) (r : option (string * string))
  : option (string * string) :=
  match r with
  | Some (s, rest) => Some (String c s, rest)
  | None => None
  end.

(** The characters of a string literal after its opening quote, up to the
    closing quote, and what follows the literal. *)
Fixpoint decode_chars (s : string) : option (string * string) :=
  match s with
  | EmptyString => None
  | String c s' =>
      if Ascii.eqb c dquote then Some (EmptyString, s')
      else if Ascii.eqb c backslash then
        match s' with
        | String e s'' =>
            if Ascii.eqb e "u" then
              match s'' with
              | String h1 (String h2 (String h3 (String h4 r))) =>
                  match hex_value h1, hex_value h2, hex_value h3,
                        hex_value h4 with
                  | Some a, Some b, Some c', Some d =>
                      let n := (((a * 16 + b) * 16 + c') * 16 + d)%N in
                      if (n <? 256)%N then cons_char (ascii_of_N n)
                                             (decode_chars r)
                      else None
                  | _, _, _, _ => None
                  end
              | _ => None
              end
            else
              match unescape e with
              | Some ch => cons_char ch (decode_chars s'')
              | None => None
              end
        | EmptyString => None
        end
      else if (N_of_ascii c <? 32)%N then None
      else cons_char c (decode_chars s')
  end.

(** White space between the tokens of a JSON text. *)
Definition is_ws (c : ascii) : bool :=
  Ascii.eqb c " " || Ascii.eqb c "009" || Ascii.eqb c "010"
  || Ascii.eqb c "013".

Fixpoint skip_ws (s : string) : string :=
  match s with
  | String c s' => if is_ws c then skip_ws s' else s
  | EmptyString => s
  end.

(** A string literal, after white space, and what follows it. *)
Definition decode_str (s : string) : option (string * string) :=
  match skip_ws s with
  | String c s' => if Ascii.eqb c dquote then decode_chars s' else None
  | EmptyString => None
  end.

(** The items of an object from the first key on, up to the closing
    brace and the end of the text; [fuel] bounds the number of items. *)
Fixpoint decode_items (fuel : nat) (s : string)
  : option (list (string * string)) :=
  match fuel with
  | O => None
  | S fuel' =>
      match decode_str s with
      | None => None
      | Some (k, s1) =>
          match skip_ws s1 with
          | String c s2 =>
              if Ascii.eqb c ":" then
                match decode_str s2 with
                | None => None
                | Some (v, s3) =>
                    match skip_ws s3 with
                    | String c' s4 =>
                        if Ascii.eqb c' "," then
                          match decode_items fuel' s4 with
                          | Some kvs => Some ((k, v) :: kvs)
                          | None => None
                          end
                        else if Ascii.eqb c' "}" then
                          match skip_ws s4 with
                          | EmptyString => Some [(k, v)]
                          | _ => None
                          end
                        else None
                    | EmptyString => None
                    end
                end
              else None
          | EmptyString => None
          end
      end
  end.

(** [json.loads(s)] for a text that is an object whose values are
    strings: its items in the order of the text; [None] for any other
    text.  The code does not read the file back; this is the reading the
    statements about the file's content are made with. *)
Definition loads (s : string) : option (list (string * string)) :=
  match skip_ws s with
  | String c s1 =>
      if Ascii.eqb c "{" then
        match skip_ws s1 with
        | String c' s2 =>
            if Ascii.eqb c' "}" then
              match skip_ws s2 with
              | EmptyString => Some []
              | _ => None
              end
            else decode_items (String.length s) s1
        | EmptyString => None
        end
      else None
  | EmptyString => None
  end.

End json.

(** * Objects *)

(** References into the object store. *)
Definition ref := nat.

(** Modelled from the spec: the run handle of the Aim client ([aim] is a
    third-party package, not among the sources).  The client owns the run;
    the code reads its [hash], a [str], and calls [track] and [set] on
    it. *)
Record Run : Type := mkRun {
  run_id : nat;
  hash : string
}.

(** [logging.getLogger()]: the root logger. *)
Inductive Logger : Type := RootLogger.

Inductive LogLevel : Type := ERROR | INFO.

(** A call received by the Aim client on a run. *)
Inductive AimCall : Type :=
| RunTrack (run : Run) (value : PyVal) (name : PyVal) (context : PyVal)
| RunSet (run : Run) (key : PyVal * PyVal) (value : PyVal) (strict : bool).

(** A [RunIDExporterAimCallback].  [repo] and [experiment_name] are the
    constructor's arguments, [experiment] is the run handle of the base
    class, absent until [setup] makes it.  [run_id_export_path] and
    [logger] are the class's fields, [None] unless assigned.
    [hash_export_path] is not a field of the class: it is [None] here
    until an assignment creates the attribute with the value assigned. *)
Record Callback : Type := mkCallback {
  repo : string;
  experiment_name : option string;
  experiment : option Run;
  run_id_export_path : option string;
  logger : option Logger;
  hash_export_path : option (option string)
}.

(** Modelled from the spec: [tuning.config.tracker_configs.AimConfig],
    which is not among the sources; the four fields the tracker reads,
    each a [str] or [None]. *)
Record AimConfig : Type := mkAimConfig {
  cfg_experiment : option string;
  aim_url : option string;
  aim_repo : option string;
  aim_run_id_export_path : option string
}.

(** An [AimStackTracker].  Modelled from the spec: the base class
    [Tracker] of [tuning/trackers/tracker.py], which is not among the
    sources, keeps the [name] and the [config] it is constructed with.
    [hf_callback] is [None] until [get_hf_callback] assigns the
    attribute. *)
Record Tracker : Type := mkTracker {
  name : string;
  config : AimConfig;
  tracker_logger : Logger;
  hf_callback : option ref
}.

(** Modelled from the spec: [transformers.TrainingArguments], a
    third-party class; the one field the callback reads. *)
Record TrainingArguments : Type := mkTrainingArguments {
  output_dir : option string
}.

(** * The world *)

(** [aim_hash_of n] is the hash the Aim client gives the run it creates
    after [n] others. *)
Record World : Type := mkWorld {
  callbacks : list Callback;
  trackers : list Tracker;
  fs : FS;
  log : list (LogLevel * string);
  aim_calls : list AimCall;
  aim_runs : nat;
  aim_hash_of : nat -> string
}.

Definition with_callbacks (cbs : list Callback) (w : World) : World :=
  mkWorld cbs (trackers w) (fs w) (log w) (aim_calls w) (aim_runs w)
    (aim_hash_of w).
Definition with_trackers (ts : list Tracker) (w : World) : World :=
  mkWorld (callbacks w) ts (fs w) (log w) (aim_calls w) (aim_runs w)
    (aim_hash_of w).
Definition with_fs (f : FS) (w : World) : World :=
  mkWorld (callbacks w) (trackers w) f (log w) (aim_calls w) (aim_runs w)
    (aim_hash_of w).
Definition with_log (l : list (LogLevel * string)) (w : World) : World :=
  mkWorld (callbacks w) (trackers w) (fs w) l (aim_calls w) (aim_runs w)
    (aim_hash_of w).
Definition with_aim_calls (c : list AimCall) (w : World) : World :=
  mkWorld (callbacks w) (trackers w) (fs w) (log w) c (aim_runs w)
    (aim_hash_of w).
Definition with_aim_runs (n : nat) (w : World) : World :=
  mkWorld (callbacks w) (trackers w) (fs w) (log w) (aim_calls w) n
    (aim_hash_of w).

(** * Computations *)

(** A computation runs in a world and ends in a world, with a value or
    with an exception.  The world at an exception is the world the handler
    sees: what was done before the [raise] stays done. *)
Definition M (A : Type) : Type := World -> World * result A.

Definition ret {A} (a : A) : M A := fun w => (w, Ok a).

Definition raise {A} (e : exn) : M A := fun w => (w, Raised e).

Definition bind {A B} (m : M A) (k : A -> M B) : M B :=
  fun w =>
    match m w with
    | (w', Ok a) => k a w'
    | (w', Raised e) => (w', Raised e)
    end.

#[export] Instance M_ret : MRet M := @ret.
#[export] Instance M_bind : MBind M := fun A B k m => bind m k.

Definition gets {A} (f : World -> A) : M A := fun w => (w, Ok (f w)).

Definition modify (f : World -> World) : M unit := fun w => (f w, Ok tt).

(** A call into [os]: it changes the file system only. *)
Definition lift_os {A} (op : FS -> FS * result A) : M A :=
  fun w => let '(f, r) := op (fs w) in (with_fs f w, r).

(** The world after a computation, and its outcome. *)
Definition exec {A} (m : M A) (w : World) : World := (m w).1.
Definition outcome {A} (m : M A) (w : World) : result A := (m w).2.

(** [for x in xs: body(x)] *)
Fixpoint for_each {A} (xs : list A) (body : A -> M unit) : M unit :=
  match xs with
  | [] => ret tt
  | x :: xs' => bind (body x) (fun _ => for_each xs' body)
  end.

(** * Access to the objects in the store *)

Definition callback_at (l : ref) : M Callback :=
  fun w =>
    match callbacks w !! l with
    | Some cb => (w, Ok cb)
    | None => (w, Raised (ReferenceError l))
    end.

Definition update_callback (l : ref) (f : Callback -> Callback) : M unit :=
  cb ← callback_at l;
  modify (fun w => with_callbacks (<[l := f cb]> (callbacks w)) w).

Definition new_callback (cb : Callback) : M ref :=
  fun w => (with_callbacks (callbacks w ++ [cb]) w, Ok (length (callbacks w))).

Definition tracker_at (l : ref) : M Tracker :=
  fun w =>
    match trackers w !! l with
    | Some t => (w, Ok t)
    | None => (w, Raised (ReferenceError l))
    end.

Definition update_tracker (l : ref) (f : Tracker -> Tracker) : M unit :=
  t ← tracker_at l;
  modify (fun w => with_trackers (<[l := f t]> (trackers w)) w).

Definition new_tracker (t : Tracker) : M ref :=
  fun w => (with_trackers (trackers w ++ [t]) w, Ok (length (trackers w))).

Definition set_experiment (r : option Run) (cb : Callback) : Callback :=
  mkCallback (repo cb) (experiment_name cb) r (run_id_export_path cb)
    (logger cb) (hash_export_path cb).
Definition set_run_id_export_path (p : option string) (cb : Callback)
  : Callback :=
  mkCallback (repo cb) (experiment_name cb) (experiment cb) p (logger cb)
    (hash_export_path cb).
Definition set_logger (l : option Logger) (cb : Callback) : Callback :=
  mkCallback (repo cb) (experiment_name cb) (experiment cb)
    (run_id_export_path cb) l (hash_export_path cb).
Definition set_hash_export_path (p : option string) (cb : Callback)
  : Callback :=
  mkCallback (repo cb) (experiment_name cb) (experiment cb)
    (run_id_export_path cb) (logger cb) (Some p).
Definition set_hf_callback (l : ref) (t : Tracker) : Tracker :=
  mkTracker (name t) (config t) (tracker_logger t) (Some l).

(** * [logging] *)

(** [lg.<method>(msg)] on a field that holds a logger or [None]. *)
Definition logger_call (lg : option Logger) (lvl : LogLevel)
    (method msg : string) : M unit :=
  match lg with
  | None =>
      raise (AttributeError
               ("'NoneType' object has no attribute '" +:+ method +:+ "'"))
  | Some RootLogger => modify (fun w => with_log (log w ++ [(lvl, msg)]) w)
  end.

Definition logger_error (lg : option Logger) (msg : string) : M unit :=
  logger_call lg ERROR "error" msg.

Definition logger_info (lg : option Logger) (msg : string) : M unit :=
  logger_call lg INFO "info" msg.

(** * The Aim client *)

(** Modelled from the spec: the part of the third-party package [aim]
    the code calls, which is not among the sources.  A callback is
    constructed without a run; [setup] gives it the run handle on its
    first call and keeps it afterwards; a run records the [track] and
    [set] calls it receives. *)
Module aim.

(** [AimCallback.__init__(repo=..., experiment=...)] followed by the
    class fields of [RunIDExporterAimCallback]. *)
Definition AimCallback_init (repo : string) (experiment : option string)
  : Callback :=
  mkCallback repo experiment None None None None.

Definition new_run : M Run :=
  fun w =>
    (with_aim_runs (S (aim_runs w)) w,
     Ok (mkRun (aim_runs w) (aim_hash_of w (aim_runs w)))).

(** [AimCallback.setup()] *)
Definition setup (self : ref) : M unit :=
  cb ← callback_at self;
  match experiment cb with
  | Some _ => ret tt
  | None =>
      run ← new_run;
      update_callback self (set_experiment (Some run))
  end.

(** [run.track(value, name=name, context=context)] *)
Definition Run_track (run : Run) (value name context : PyVal) : M unit :=
  modify (fun w =>
            with_aim_calls (aim_calls w ++ [RunTrack run value name context])
              w).

(** [run.set(key, value, strict=strict)] *)
Definition Run_set (run : Run) (key : PyVal * PyVal) (value : PyVal)
    (strict : bool) : M unit :=
  modify (fun w =>
            with_aim_calls (aim_calls w ++ [RunSet run key value strict]) w).

End aim.

(** * [RunIDExporterAimCallback] *)

(** [str(h)] for the hash of a run: the hash is a [str], and [str] of a
    [str] is the string itself. *)
Definition py_str (h : string) : string := h.

Definition AIM_HASH_EXPORT_DEFAULT_FILENAME : string := "aimstack_tracker.json".

Definition RunIDExporterAimCallback (repo : string)
    (experiment : option string) : M ref :=
  new_callback (aim.AimCallback_init repo experiment).

(** The message of line 73: the backslash at the end of the source line
    continues the literal, and the indentation of the next line is part of
    the message. *)
Definition MSG_NO_EXPORT_PATH : string :=
  "To export Aimstack hash either output_dir                                     or aim_run_id_export_path should be set".

(** Lines 80 to 88 of [on_init_end]: the directory is made when nothing
    is at its path, and the hash is written to the file, which is opened
    for writing. *)
Definition export_run_hash (self : ref) : M unit :=
  cb ← callback_at self;
  match run_id_export_path cb with
  | None => raise (TypeError "expected str, bytes or os.PathLike object, not NoneType")
  | Some dir =>
      exists_ ← gets (fun w => os.path_exists (fs w) dir);
      (if negb exists_ then lift_os (os.makedirs dir) else ret tt);;
      let export_path := posixpath.join dir AIM_HASH_EXPORT_DEFAULT_FILENAME in
      f ← lift_os (os.open_w export_path);
      cb ← callback_at self;
      match experiment cb with
      | None => raise (AttributeError "'NoneType' object has no attribute 'hash'")
      | Some run =>
          modify (fun w =>
                    with_fs (os.write f
                               (json.dumps [("run_hash", py_str (hash run))])
                               (fs w)) w);;
          logger_info (logger cb)
            ("Aimstack tracker run hash id dumped to " +:+ export_path)
      end
  end.

(** [args is None or args.output_dir is None] is [None] here; otherwise
    the value of [args.output_dir]. *)
Definition args_output_dir (args : option TrainingArguments)
  : option string :=
  match args with
  | None => None
  | Some a => output_dir a
  end.

(** [RunIDExporterAimCallback.on_init_end(args, state, control)].
    [state] and [control] are not used.  The [return] of line 76 ends the
    call; on the other paths the call goes on with line 80. *)
Definition on_init_end (self : ref) (args : option TrainingArguments)
  : M unit :=
  aim.setup self;;
  cb ← callback_at self;
  match run_id_export_path cb with
  | None =>
      match args_output_dir args with
      | None => logger_error (logger cb) MSG_NO_EXPORT_PATH
      | Some d =>
          update_callback self (set_run_id_export_path (Some d));;
          export_run_hash self
      end
  | Some _ => export_run_hash self
  end.

(** * [AimStackTracker] *)

(** [AimStackTracker(tracker_config)] *)
Definition AimStackTracker (tracker_config : AimConfig) : M ref :=
  new_tracker (mkTracker "aim" tracker_config RootLogger None).

(** The message of the [ValueError] of line 129, and the message of the
    error logged before it. *)
Definition MSG_NOT_SPECIFIED : string :=
  "Aim tracker requested but repo or server is not specified.".

Definition MSG_NOT_SPECIFIED_LOG : string :=
  "Aim tracker requested but repo or server is not specified. "
  +:+ "Please specify either aim repo or aim server ip and port for using Aim.".

(** [AimStackTracker.get_hf_callback()] *)
Definition get_hf_callback (self : ref) : M ref :=
  t ← tracker_at self;
  let c := config t in
  let exp := cfg_experiment c in
  let url := aim_url c in
  let repo := aim_repo c in
  let run_id_path := aim_run_id_export_path c in
  (match url with
   | Some u => cb ← RunIDExporterAimCallback u exp; ret (Some cb)
   | None => ret None
   end);;
  aim_callback ←
    (if truthy repo
     then RunIDExporterAimCallback (default "" repo) exp
     else
       logger_error (Some (tracker_logger t)) MSG_NOT_SPECIFIED_LOG;;
       raise (ValueError MSG_NOT_SPECIFIED));
  (* [aim_callback is not None]: it is a callback *)
  update_callback aim_callback (set_hash_export_path run_id_path);;
  update_callback aim_callback (set_logger (Some (tracker_logger t)));;
  update_tracker self (set_hf_callback aim_callback);;
  ret aim_callback.

(** [self.hf_callback], an attribute that [get_hf_callback] creates. *)
Definition get_attr_hf_callback (self : ref) : M ref :=
  t ← tracker_at self;
  match hf_callback t with
  | Some l => ret l
  | None =>
      raise (AttributeError
               "'AimStackTracker' object has no attribute 'hf_callback'")
  end.

Definition DEFAULT_STAGE : PyVal := PyStr "additional_metrics".
Definition DEFAULT_NAME : PyVal := PyStr "extra_params".

(** [AimStackTracker.track(metric, name, stage="additional_metrics")];
    [stage] is [None] when the caller leaves it out. *)
Definition track (self : ref) (metric name : PyVal) (stage : option PyVal)
  : M unit :=
  let stage := default DEFAULT_STAGE stage in
  if is_None metric || is_None name then
    raise (ValueError
             "aimstack track function should not be called with None metric value or name")
  else
    let context := PyDict [(PyStr "subset", stage)] in
    callback ← get_attr_hf_callback self;
    cb ← callback_at callback;
    match experiment cb with
    | Some run => aim.Run_track run metric name context
    | None => ret tt
    end.

(** [params.items()] *)
Definition dict_items (v : PyVal) : list (PyVal * PyVal) :=
  match v with PyDict items => items | _ => [] end.

(** [AimStackTracker.set_params(params, name="extra_params")]; [name] is
    [None] when the caller leaves it out. *)
Definition set_params (self : ref) (params : PyVal) (name : option PyVal)
  : M unit :=
  let name := default DEFAULT_NAME name in
  if is_None params then ret tt
  else if negb (isinstance_dict params) then
    raise (ValueError
             "set_params passed to aimstack should be called with a dict of params")
  else
    callback ← get_attr_hf_callback self;
    cb ← callback_at callback;
    match experiment cb with
    | Some run =>
        for_each (dict_items params)
          (fun kv => aim.Run_set run (name, kv.1) kv.2 false)
    | None => ret tt
    end.

(** * Notions used in the statements *)

Definition is_file (e : option Entry) : bool :=
  match e with Some (RegularFile _) => true | _ => false end.

Definition is_dir (e : option Entry) : bool :=
  match e with Some Directory => true | _ => false end.

(** No regular file stands where [os.makedirs] has to find or make one of
    the directories [pre ++ [c1]], [pre ++ [c1; c2]], ... *)
Fixpoint no_file_on_way (fs : FS) (pre rest : list string) : bool :=
  match rest with
  | [] => true
  | c :: rest' =>
      negb (is_file (os.stat fs (pre ++ [c])%list))
      && no_file_on_way fs (pre ++ [c])%list rest'
  end.

(** The file system lets the hash be exported under [dir]: [dir] is a
    path, it is a directory or can be made one, and the export file's
    name is not taken by a directory.  Without it [os.makedirs] or [open]
    raises an [OSError], which [on_init_end] lets through. *)
Definition can_export (fs : FS) (dir : string) : bool :=
  match posixpath.resolve dir with
  | None => false
  | Some loc =>
      match os.stat fs loc with
      | Some Directory => true
      | Some (RegularFile _) => false
      | None => no_file_on_way fs [] loc
      end
      && negb (is_dir (os.stat fs
                         (loc ++ [AIM_HASH_EXPORT_DEFAULT_FILENAME])%list))
  end.

(** The directory an [on_init_end] call exports to: the callback's
    [run_id_export_path] when it is set, else [args.output_dir]. *)
Definition export_dir (cb : Callback) (args : option TrainingArguments)
  : option string :=
  match run_id_export_path cb with
  | Some p => Some p
  | None => args_output_dir args
  end.

(** The text [on_init_end] writes for a run with hash [h]. *)
Definition run_hash_json (h : string) : string :=
  json.dumps [("run_hash", h)].

(** The world after [on_init_end] calls on one callback, one call after
    the other, whatever their outcomes. *)
Definition on_init_end_calls (self : ref)
    (calls : list (option TrainingArguments)) (w : World) : World :=
  fold_left (fun w args => exec (on_init_end self args) w) calls w.

(** A world with nothing in it, in which the Aim client gives every run
    the hash [h]; the examples start from it. *)
Definition empty_world (h : string) : World :=
  mkWorld [] [] ∅ [] [] 0 (fun _ => h).

(** [f'] is what an export of the text [js] under [dir] makes of the file
    system [f]: [dir] is a directory, with all the directories above it
    when it had to be made; the export file holds [js] and nothing else;
    and when [dir] was a directory already, that file is all that
    changed. *)
Definition exported_fs (f f' : FS) (dir js : string) : Prop :=
  exists loc,
    posixpath.resolve dir = Some loc
    /\ os.stat f' loc = Some Directory
    /\ (os.stat f loc = None ->
        forall k, os.stat f' (take k loc) = Some Directory)
    /\ f' !! (loc ++ [AIM_HASH_EXPORT_DEFAULT_FILENAME])
       = Some (RegularFile js)
    /\ (os.stat f loc = Some Directory ->
        f' = <[loc ++ [AIM_HASH_EXPORT_DEFAULT_FILENAME]
                := RegularFile js]> f).

(** The record [on_init_end] hands to the logger after the export. *)
Definition INFO_DUMPED (dir : string) : LogLevel * string :=
  (INFO, "Aimstack tracker run hash id dumped to "
         +:+ posixpath.join dir AIM_HASH_EXPORT_DEFAULT_FILENAME).

(** A computation that leaves the callbacks in the store as they are. *)
Definition keeps_callbacks {A} (m : M A) : Prop :=
  forall w, callbacks (m w).1 = callbacks w.

(** ** Worlds for the examples *)

Definition example_config : AimConfig :=
  mkAimConfig (Some "exp") None (Some "repo") None.

(** A tracker and the callback [get_hf_callback] gave it (both at
    reference 0); the callback has no run yet. *)
Definition example_tracker_world : World :=
  exec (t ← AimStackTracker example_config; get_hf_callback t)
    (empty_world "0a1b2c3d").

Definition example_args : option TrainingArguments :=
  Some (mkTrainingArguments (Some "/out/run1")).

(** The same after [on_init_end]: the callback has its run. *)
Definition example_run_world : World :=
  exec (on_init_end 0 example_args) example_tracker_world.

(** A tracker (at reference 0) whose configuration names neither a
    repository nor a server. *)
Definition example_unset_world : World :=
  exec (AimStackTracker (mkAimConfig (Some "exp") None None None))
    (empty_world "0a1b2c3d").

(** ** Notions and worlds for the further properties *)

(** A computation that leaves one component of the world as it is. *)
Definition keeps_field {A B} (proj : World -> B) (m : M A) : Prop :=
  forall w, proj (m w).1 = proj w.

(** A computation that leaves every entry of the file system as it is,
    but for entries named as the export file is. *)
Definition keeps_other_entries {A} (m : M A) : Prop :=
  forall w loc e,
    last loc <> Some AIM_HASH_EXPORT_DEFAULT_FILENAME ->
    fs w !! loc = Some e ->
    fs (m w).1 !! loc = Some e.

(** A character the JSON encoder writes as it is. *)
Definition plain_char (c : ascii) : bool :=
  (32 <=? N_of_ascii c)%N && (N_of_ascii c <=? 126)%N
  && negb (Ascii.eqb c json.dquote) && negb (Ascii.eqb c json.backslash).

Fixpoint plain (s : string) : bool :=
  match s with
  | EmptyString => true
  | String c s' => plain_char c && plain s'
  end.

(** [s] between double quotes, as it is. *)
Definition quoted (s : string) : string :=
  String json.dquote (s +:+ String json.dquote "").

(** The callback of [example_tracker_world] with [run_id_export_path]
    assigned, as [cb.run_id_export_path = "/export"] does. *)
Definition example_path_world : World :=
  exec (update_callback 0 (set_run_id_export_path (Some "/export")))
    example_tracker_world.

(** [example_tracker_world] with a regular file at [/out]. *)
Definition example_blocked_world : World :=
  with_fs {[ ["/"; "out"] := RegularFile "" ]} example_tracker_world.

(** A callback constructed directly (at reference 0): no tracker gave it
    a logger. *)
Definition example_bare_world : World :=
  exec (RunIDExporterAimCallback "repo" (Some "exp")) (empty_world "0a1b2c3d").

(** A tracker (at reference 0) whose configuration has a url and the
    empty string as repository. *)
Definition example_empty_repo_world : World :=
  exec (AimStackTracker
          (mkAimConfig (Some "exp") (Some "aim://10.0.0.1:53800") (Some "")
             None))
    (empty_world "0a1b2c3d").

(** [example_tracker_world] with a file of another name beside the
    export file's place. *)
Definition example_other_file_world : World :=
  with_fs {[ ["/"; "out"] := Directory;
             ["/"; "out"; "notes.txt"] := RegularFile "keep" ]}
    example_tracker_world.

(** [example_run_world] after a second [get_hf_callback]: the store has
    the first callback, with its run, at reference 0 and the second at
    reference 1. *)
Definition example_two_callbacks_world : World :=
  exec (get_hf_callback 0) example_run_world.

(** * Lemmas *)

#[local] Arguments posixpath.join : simpl never.
#[local] Arguments posixpath.resolve : simpl never.
#[local] Arguments json.dumps : simpl never.
#[local] Arguments os.stat : simpl never.

(** ** Strings *)

Lemma app_cons c a b : String c a +:+ b = String c (a +:+ b).
Proof. reflexivity. Qed.

Lemma string_app_assoc (a b c : string) : (a +:+ b) +:+ c = a +:+ b +:+ c.
Proof.
  induction a as [|x a IH]; [reflexivity|].
  rewrite !app_cons. now rewrite IH.
Qed.

Lemma string_app_nil_r (a : string) : a +:+ "" = a.
Proof.
  induction a as [|x a IH]; [reflexivity|].
  rewrite app_cons. now rewrite IH.
Qed.

Lemma string_length_app (a b : string) :
  String.length (a +:+ b) = String.length a + String.length b.
Proof.
  induction a as [|x a IH]; [reflexivity|].
  rewrite app_cons. cbn [String.length]. now rewrite IH.
Qed.

Lemma eqb_app_empty a b : a <> "" -> String.eqb (a +:+ b) "" = false.
Proof. destruct a; [congruence|reflexivity]. Qed.

Lemma eqb_app_cons_empty a c b : String.eqb (a +:+ String c b) "" = false.
Proof. now destruct a. Qed.

(** ** Paths *)

Section paths.
Import posixpath.

Lemma split_sep_nonempty s : split_sep s <> [].
Proof.
  destruct s as [|c s]; cbn; [discriminate|].
  destruct (Ascii.eqb c sep); [discriminate|].
  destruct (split_sep s); discriminate.
Qed.

Lemma split_sep_cons c s :
  split_sep (String c s) =
    if Ascii.eqb c sep then "" :: split_sep s
    else match split_sep s with
         | h :: t => String c h :: t
         | [] => [String c ""]
         end.
Proof. reflexivity. Qed.

(** Splitting goes through a separator. *)
Lemma split_sep_app a b :
  split_sep (a +:+ String sep b) = split_sep a ++ split_sep b.
Proof.
  induction a as [|c a IH]; [reflexivity|].
  rewrite app_cons, !split_sep_cons, IH.
  destruct (Ascii.eqb c sep); [reflexivity|].
  destruct (split_sep a) eqn:E; [|reflexivity].
  now apply split_sep_nonempty in E.
Qed.

Lemma endswith_sep_inv a :
  endswith_sep a = true -> exists a', a = a' +:+ String sep "".
Proof.
  induction a as [|c a IH]; [discriminate|].
  destruct a as [|c' a].
  - cbn. intros H. apply Ascii.eqb_eq in H. subst c. now exists "".
  - intros H. destruct (IH H) as [a' E]. exists (String c a').
    rewrite app_cons. now rewrite <- E.
Qed.

Lemma startswith_sep_app a b :
  a <> "" -> startswith_sep (a +:+ b) = startswith_sep a.
Proof. destruct a; [congruence|reflexivity]. Qed.

Lemma startswith_sep_app_sep a x y :
  startswith_sep (a +:+ String sep x) = startswith_sep (a +:+ String sep y).
Proof. now destruct a. Qed.

Lemma resolve_Some dir loc :
  resolve dir = Some loc ->
  dir <> ""
  /\ loc = (if startswith_sep dir then ["/"] else [])
           ++ List.filter is_name (split_sep dir).
Proof.
  unfold resolve. destruct (String.eqb dir "") eqn:E; [discriminate|].
  apply String.eqb_neq in E. now intros [= <-].
Qed.

(** The entry [name] of a directory: a plain name, with no separator in
    it. *)
Section child.

Variable name : string.
Hypothesis name_plain : split_sep name = [name].
Hypothesis name_is_name : is_name name = true.

Lemma name_relative : startswith_sep name = false.
Proof using name_plain name_is_name.
  destruct name as [|c s]; [reflexivity|].
  cbn. destruct (Ascii.eqb c sep) eqn:E; [|reflexivity].
  rewrite split_sep_cons, E in name_plain. discriminate.
Qed.

(** [dir/name] names the entry [name] of what [dir] names. *)
Lemma resolve_child dir loc :
  resolve dir = Some loc ->
  resolve (dir +:+ String sep name) = Some (loc ++ [name]).
Proof using name_plain name_is_name.
  intros H. destruct (resolve_Some _ _ H) as [Hne ->].
  unfold resolve.
  rewrite eqb_app_empty, startswith_sep_app, split_sep_app by assumption.
  rewrite List.filter_app, name_plain. cbn [List.filter].
  rewrite name_is_name. now rewrite app_assoc.
Qed.

(** So does [os.path.join(dir, name)], which puts no second separator
    after a [dir] that ends with one. *)
Lemma resolve_join dir loc :
  resolve dir = Some loc ->
  resolve (join dir name) = Some (loc ++ [name]).
Proof using name_plain name_is_name.
  intros H. destruct (resolve_Some _ _ H) as [Hne Hloc].
  unfold join. rewrite name_relative.
  apply String.eqb_neq in Hne. rewrite Hne. cbn [orb].
  apply String.eqb_neq in Hne.
  destruct (endswith_sep dir) eqn:Hs; [|now apply resolve_child].
  destruct (endswith_sep_inv _ Hs) as [a' ->].
  rewrite string_app_assoc. change (String sep "" +:+ name) with (String sep name).
  subst loc. unfold resolve.
  rewrite !eqb_app_cons_empty, (startswith_sep_app_sep a' name "").
  rewrite !split_sep_app, !List.filter_app, name_plain.
  cbn [List.filter split_sep is_name]. cbn [String.eqb negb andb].
  rewrite name_is_name, app_nil_r. now rewrite app_assoc.
Qed.

End child.

End paths.

(** ** [json]: what [dumps] writes, [loads] reads *)

Section json_roundtrip.
Import json.

Lemma decode_chars_escape c s :
  decode_chars (escape c +:+ s) = cons_char c (decode_chars s).
Proof. destruct c as [[] [] [] [] [] [] [] []]; reflexivity. Qed.

Lemma decode_chars_escape_all s rest :
  decode_chars (escape_all s +:+ String dquote rest) = Some (s, rest).
Proof.
  induction s as [|c s IH]; [reflexivity|].
  cbn [escape_all]. rewrite string_app_assoc, decode_chars_escape, IH.
  reflexivity.
Qed.

Lemma decode_str_encode_str s rest :
  decode_str (encode_str s +:+ rest) = Some (s, rest).
Proof.
  unfold decode_str, encode_str.
  rewrite app_cons, string_app_assoc.
  change (String dquote "" +:+ rest) with (String dquote rest).
  cbn [skip_ws]. change (is_ws dquote) with false. cbv iota.
  rewrite Ascii.eqb_refl. apply decode_chars_escape_all.
Qed.

Lemma decode_str_space s : decode_str (String " " s) = decode_str s.
Proof. reflexivity. Qed.

Lemma decode_items_space fuel s :
  decode_items fuel (String " " s) = decode_items fuel s.
Proof. destruct fuel; reflexivity. Qed.

Lemma encode_items_cons kv kvs :
  encode_items (kv :: kvs)
  = encode_item kv
    +:+ match kvs with
        | [] => ""
        | _ => ", " +:+ encode_items kvs
        end.
Proof.
  destruct kvs; cbn [encode_items]; [|reflexivity].
  now rewrite string_app_nil_r.
Qed.

Lemma decode_items_encode_items kvs : forall fuel,
  kvs <> [] -> length kvs <= fuel ->
  decode_items fuel (encode_items kvs +:+ "}") = Some kvs.
Proof.
  induction kvs as [|[k v] kvs IH]; intros fuel Hne Hfuel; [congruence|].
  destruct fuel as [|fuel]; [cbn in Hfuel; lia|].
  rewrite encode_items_cons. unfold encode_item. cbn [fst snd].
  rewrite ?string_app_assoc. cbn [decode_items].
  rewrite decode_str_encode_str.
  change (": " +:+ ?x) with (String ":" (String " " x)).
  cbn [skip_ws]. change (is_ws ":") with false. cbv iota.
  rewrite Ascii.eqb_refl, decode_str_space, decode_str_encode_str.
  destruct kvs as [|kv' kvs]; [reflexivity|].
  rewrite ?string_app_assoc.
  change (", " +:+ ?x) with (String "," (String " " x)).
  cbn [skip_ws]. change (is_ws ",") with false. cbv iota.
  rewrite Ascii.eqb_refl, decode_items_space.
  rewrite IH; [reflexivity|discriminate|cbn in *; lia].
Qed.

Lemma length_encode_items kvs :
  length kvs <= String.length (encode_items kvs).
Proof.
  induction kvs as [|[k v] kvs IH]; [cbn; lia|].
  rewrite encode_items_cons. unfold encode_item, encode_str. cbn [fst snd].
  destruct kvs as [|kv' kvs].
  - rewrite !string_length_app. cbn. lia.
  - rewrite !string_length_app. cbn [length]. cbn [length] in IH.
    change (String.length (", " +:+ ?x)) with (S (S (String.length x))).
    cbn [String.length]. lia.
Qed.

(** Reading back what [dumps] wrote gives the dictionary. *)
Lemma loads_dumps kvs : loads (dumps kvs) = Some kvs.
Proof.
  unfold loads, dumps.
  change ("{" +:+ ?x) with (String "{" x).
  cbn [skip_ws]. change (is_ws "{") with false. cbv iota.
  rewrite Ascii.eqb_refl.
  destruct kvs as [|kv kvs]; [reflexivity|].
  assert (E : exists s, encode_items (kv :: kvs) +:+ "}" = String dquote s).
  { rewrite encode_items_cons. unfold encode_item, encode_str.
    eexists. reflexivity. }
  destruct E as (s & E).
  rewrite E at 1. cbn [skip_ws]. change (is_ws dquote) with false. cbv iota.
  change (Ascii.eqb dquote "}") with false. cbv iota.
  apply decode_items_encode_items; [discriminate|].
  cbn [String.length]. rewrite string_length_app.
  pose proof (length_encode_items (kv :: kvs)). lia.
Qed.

End json_roundtrip.

(** ** The file system *)

Section fs.
Import os.

Lemma stat_ext (f f' : FS) loc :
  f' !! loc = f !! loc -> stat f' loc = stat f loc.
Proof.
  intros H. unfold stat.
  destruct loc as [|r [|r' l]]; [reflexivity| |]; now rewrite H.
Qed.

Lemma stat_insert_ne (f : FS) loc loc' e :
  loc <> loc' -> stat (<[loc := e]> f) loc' = stat f loc'.
Proof. intros H. apply stat_ext. now apply lookup_insert_ne. Qed.

Lemma stat_insert_dir (f : FS) loc :
  stat (<[loc := Directory]> f) loc = Some Directory.
Proof.
  unfold stat.
  destruct loc as [|r [|r' l]]; [reflexivity| |];
    rewrite lookup_insert_eq; [|reflexivity].
  now destruct (String.eqb r "/").
Qed.

(** An entry of a directory is a stored entry, unless its name is [/]. *)
Lemma stat_child (f : FS) loc c :
  c <> "/" -> stat f (loc ++ [c]) = f !! (loc ++ [c]).
Proof.
  intros H. unfold stat. destruct loc as [|r [|r' l]]; cbn; try reflexivity.
  apply String.eqb_neq in H. now rewrite H.
Qed.

Lemma no_file_on_way_insert (f : FS) loc e pre rest :
  length loc <= length pre ->
  no_file_on_way (<[loc := e]> f) pre rest = no_file_on_way f pre rest.
Proof.
  revert pre. induction rest as [|c rest IH]; intros pre Hlen; [reflexivity|].
  cbn. rewrite stat_insert_ne, IH; [reflexivity| |].
  - rewrite length_app. cbn. lia.
  - intros ->. rewrite length_app in Hlen. cbn in Hlen. lia.
Qed.

(** With no regular file on the way, [makedirs_from] makes every
    directory of the way and touches nothing shorter than [pre] or longer
    than the way. *)
Lemma makedirs_from_ok p rest : forall pre (f : FS),
  stat f pre = Some Directory ->
  no_file_on_way f pre rest = true ->
  exists f',
    makedirs_from p pre rest f = (f', Ok tt)
    /\ (forall k, stat f' (pre ++ take k rest) = Some Directory)
    /\ (forall loc',
           length loc' <= length pre \/ length (pre ++ rest) < length loc' ->
           f' !! loc' = f !! loc').
Proof.
  induction rest as [|c rest IH]; intros pre f Hpre Hway.
  - exists f. split; [reflexivity|]. split; [|reflexivity].
    intros k. now rewrite take_nil, app_nil_r.
  - cbn in Hway. apply andb_true_iff in Hway as [Hc Hway].
    cbn [makedirs_from].
    assert (Happ : forall l, pre ++ c :: l = (pre ++ [c]) ++ l)
      by (intros l; now rewrite <- app_assoc).
    assert (Hstep : forall f1,
               stat f1 (pre ++ [c]) = Some Directory ->
               no_file_on_way f1 (pre ++ [c]) rest = true ->
               (forall loc', loc' <> pre ++ [c] -> f1 !! loc' = f !! loc') ->
               exists f',
                 makedirs_from p (pre ++ [c]) rest f1 = (f', Ok tt)
                 /\ (forall k, stat f' (pre ++ take k (c :: rest))
                               = Some Directory)
                 /\ (forall loc',
                        length loc' <= length pre
                        \/ length (pre ++ c :: rest) < length loc' ->
                        f' !! loc' = f !! loc')).
    { intros f1 Hd1 Hway1 Hkeep1.
      destruct (IH _ f1 Hd1 Hway1) as (f' & H1 & H2 & H3).
      assert (Hkeep : forall loc',
                 length loc' <= length pre
                 \/ length (pre ++ c :: rest) < length loc' ->
                 f' !! loc' = f !! loc').
      { intros loc' Hlen. rewrite H3, Hkeep1.
        - reflexivity.
        - intros ->. rewrite Happ, !length_app in Hlen. cbn in Hlen. lia.
        - rewrite Happ, !length_app in *. cbn in *. lia. }
      exists f'. split; [assumption|]. split; [|assumption].
      intros [|k].
      - rewrite take_0, app_nil_r. rewrite <- Hpre.
        apply stat_ext, Hkeep. lia.
      - cbn [take]. rewrite Happ. apply H2. }
    destruct (stat f (pre ++ [c])) as [[|content]|] eqn:E; [| discriminate |].
    + apply Hstep; auto.
    + apply Hstep.
      * apply stat_insert_dir.
      * rewrite no_file_on_way_insert by lia. assumption.
      * intros loc' Hne. now apply lookup_insert_ne.
Qed.

(** With a regular file on the way, [makedirs_from] raises. *)
Lemma makedirs_from_fails p rest : forall pre (f : FS),
  no_file_on_way f pre rest = false ->
  exists f' kind, makedirs_from p pre rest f = (f', Raised (OSError kind p)).
Proof.
  induction rest as [|c rest IH]; intros pre f Hway; [discriminate|].
  cbn in Hway. cbn [makedirs_from].
  destruct (stat f (pre ++ [c])) as [[|content]|] eqn:E; cbn in Hway.
  - apply IH, Hway.
  - eauto.
  - apply IH. now rewrite no_file_on_way_insert by lia.
Qed.

End fs.

(** The export file's name is a plain name. *)
Lemma resolve_export_file dir loc :
  posixpath.resolve dir = Some loc ->
  posixpath.resolve (posixpath.join dir AIM_HASH_EXPORT_DEFAULT_FILENAME)
  = Some (loc ++ [AIM_HASH_EXPORT_DEFAULT_FILENAME]).
Proof. now apply resolve_join. Qed.

Lemma resolve_export_file_literal dir loc :
  posixpath.resolve dir = Some loc ->
  posixpath.resolve (dir +:+ "/aimstack_tracker.json")
  = Some (loc ++ [AIM_HASH_EXPORT_DEFAULT_FILENAME]).
Proof.
  apply (resolve_child AIM_HASH_EXPORT_DEFAULT_FILENAME); reflexivity.
Qed.

(** ** Stepping through computations *)

Ltac munfold :=
  unfold exec, outcome, mbind, M_bind, mret, M_ret, bind, ret, raise, gets,
    modify, lift_os in *.

Lemma bind_ok {A B} (m : M A) (k : A -> M B) w w' a :
  m w = (w', Ok a) -> bind m k w = k a w'.
Proof. intros H. unfold bind. now rewrite H. Qed.

Lemma callback_at_ok w l cb :
  callbacks w !! l = Some cb -> callback_at l w = (w, Ok cb).
Proof. intros H. unfold callback_at. now rewrite H. Qed.

Lemma update_callback_ok w l cb f :
  callbacks w !! l = Some cb ->
  update_callback l f w
  = (with_callbacks (<[l := f cb]> (callbacks w)) w, Ok tt).
Proof.
  intros H. unfold update_callback, callback_at. munfold. now rewrite H.
Qed.

Lemma update_tracker_ok w l t f :
  trackers w !! l = Some t ->
  update_tracker l f w
  = (with_trackers (<[l := f t]> (trackers w)) w, Ok tt).
Proof.
  intros H. unfold update_tracker, tracker_at. munfold. now rewrite H.
Qed.

Lemma get_attr_hf_callback_ok w self t l :
  trackers w !! self = Some t -> hf_callback t = Some l ->
  get_attr_hf_callback self w = (w, Ok l).
Proof.
  intros Ht Hl. unfold get_attr_hf_callback, tracker_at. munfold.
  now rewrite Ht, Hl.
Qed.

Lemma callbacks_lookup_insert (w : World) (self : ref) (cb cb' : Callback) :
  callbacks w !! self = Some cb ->
  <[self := cb']> (callbacks w) !! self = Some cb'.
Proof.
  intros H. apply list_lookup_insert_eq. now apply lookup_lt_Some in H.
Qed.

Lemma set_experiment_id cb r :
  experiment cb = Some r -> set_experiment (Some r) cb = cb.
Proof. destruct cb; cbn; now intros ->. Qed.

Lemma set_run_id_export_path_id cb p :
  run_id_export_path cb = p -> set_run_id_export_path p cb = cb.
Proof. destruct cb; cbn; now intros ->. Qed.

(** ** What a computation leaves alone *)

Lemma keeps_ret {A} (a : A) : keeps_callbacks (ret a).
Proof. now intros w. Qed.

Lemma keeps_raise {A} e : keeps_callbacks (@raise A e).
Proof. now intros w. Qed.

Lemma keeps_bind {A B} (m : M A) (k : A -> M B) :
  keeps_callbacks m -> (forall a, keeps_callbacks (k a)) ->
  keeps_callbacks (bind m k).
Proof.
  intros Hm Hk w. unfold bind. specialize (Hm w).
  destruct (m w) as [w' [a|e]]; cbn in *; [|assumption].
  now rewrite Hk.
Qed.

Lemma keeps_callback_at l : keeps_callbacks (callback_at l).
Proof. intros w. unfold callback_at. now destruct (callbacks w !! l). Qed.

Lemma keeps_gets {A} (f : World -> A) : keeps_callbacks (gets f).
Proof. now intros w. Qed.

Lemma keeps_lift_os {A} (op : FS -> FS * result A) :
  keeps_callbacks (lift_os op).
Proof. intros w. unfold lift_os. now destruct (op (fs w)). Qed.

Lemma keeps_modify_fs (g : FS -> FS) :
  keeps_callbacks (modify (fun w => with_fs (g (fs w)) w)).
Proof. now intros w. Qed.

Lemma keeps_logger_call lg lvl method msg :
  keeps_callbacks (logger_call lg lvl method msg).
Proof. intros w. now destruct lg as [[]|]. Qed.

Create HintDb keeps.
#[local] Hint Resolve keeps_ret keeps_raise keeps_callback_at keeps_gets
  keeps_lift_os keeps_modify_fs keeps_logger_call : keeps.

(** The export changes no callback, whatever its outcome. *)
Lemma keeps_export_run_hash self : keeps_callbacks (export_run_hash self).
Proof.
  unfold export_run_hash, logger_info, mbind, M_bind.
  apply keeps_bind; [auto with keeps|]. intros cb.
  destruct (run_id_export_path cb) as [dir|]; [|auto with keeps].
  apply keeps_bind; [auto with keeps|]. intros ex.
  apply keeps_bind; [destruct (negb ex); auto with keeps|]. intros _.
  apply keeps_bind; [auto with keeps|]. intros f.
  apply keeps_bind; [auto with keeps|]. intros cb'.
  destruct (experiment cb') as [run|]; [|auto with keeps].
  apply keeps_bind; [|auto with keeps].
  apply (keeps_modify_fs (os.write f _)).
Qed.

(** ** [setup] *)

(** [setup] gives the callback a run, the one it has when it has one, and
    changes nothing else but the client's count of runs. *)
Lemma setup_spec w self cb :
  callbacks w !! self = Some cb ->
  exists w1 run,
    aim.setup self w = (w1, Ok tt)
    /\ callbacks w1 = <[self := set_experiment (Some run) cb]> (callbacks w)
    /\ trackers w1 = trackers w
    /\ fs w1 = fs w
    /\ log w1 = log w
    /\ aim_calls w1 = aim_calls w
    /\ (forall r, experiment cb = Some r -> run = r /\ w1 = w).
Proof.
  intros Hcb. unfold aim.setup, callback_at, update_callback, aim.new_run.
  munfold. unfold callback_at. rewrite Hcb.
  destruct (experiment cb) as [r|] eqn:E.
  - exists w, r. rewrite set_experiment_id by assumption.
    rewrite list_insert_id by assumption.
    repeat split; congruence.
  - cbn. rewrite Hcb. cbn.
    eexists _, _. split; [reflexivity|]. cbn.
    repeat split; discriminate.
Qed.

(** ** The export *)

Lemma can_export_inv (f : FS) dir :
  can_export f dir = true ->
  exists loc,
    posixpath.resolve dir = Some loc
    /\ (os.stat f loc = Some Directory
        \/ (os.stat f loc = None /\ no_file_on_way f [] loc = true))
    /\ is_dir (f !! (loc ++ [AIM_HASH_EXPORT_DEFAULT_FILENAME])) = false.
Proof.
  unfold can_export.
  destruct (posixpath.resolve dir) as [loc|]; [|discriminate].
  intros H. apply andb_true_iff in H as [H1 H2]. exists loc.
  rewrite stat_child in H2 by discriminate.
  split; [reflexivity|]. split; [|now apply negb_true_iff].
  destruct (os.stat f loc) as [[|c]|]; [now left|discriminate|now right].
Qed.

(** On a file system that lets it, the export returns, with the file
    system of [exported_fs] and one more record in the log. *)
Lemma export_run_hash_spec w self cb dir run lg :
  callbacks w !! self = Some cb ->
  run_id_export_path cb = Some dir ->
  experiment cb = Some run ->
  logger cb = Some lg ->
  can_export (fs w) dir = true ->
  exists f',
    export_run_hash self w
    = (with_log (log w ++ [INFO_DUMPED dir]) (with_fs f' w), Ok tt)
    /\ exported_fs (fs w) f' dir (run_hash_json (py_str (hash run))).
Proof.
  intros Hcb Hdir Hrun Hlg Hcan.
  destruct (can_export_inv _ _ Hcan) as (loc & Hloc & Hstat & Htarget).
  set (target := loc ++ [AIM_HASH_EXPORT_DEFAULT_FILENAME]) in *.
  assert (Hmk : exists f1,
             (if negb (os.path_exists (fs w) dir)
              then lift_os (os.makedirs dir) else ret tt) w
             = (with_fs f1 w, Ok tt)
             /\ os.stat f1 loc = Some Directory
             /\ (os.stat (fs w) loc = None ->
                 forall k, os.stat f1 (take k loc) = Some Directory)
             /\ f1 !! target = fs w !! target
             /\ (os.stat (fs w) loc = Some Directory -> f1 = fs w)).
  { unfold os.path_exists, os.makedirs, lift_os. rewrite Hloc.
    destruct Hstat as [Hd | [Hn Hway]].
    - rewrite Hd. cbn. exists (fs w). destruct w.
      repeat split; auto. congruence.
    - rewrite Hn. cbn.
      destruct (makedirs_from_ok dir loc [] (fs w) eq_refl Hway)
        as (f1 & E & Hks & Hkeep).
      rewrite E. exists f1. split; [reflexivity|].
      split; [|split; [|split]].
      + specialize (Hks (length loc)). now rewrite firstn_all in Hks.
      + intros _ k. apply Hks.
      + apply Hkeep. right. unfold target. rewrite !length_app. cbn. lia.
      + congruence. }
  destruct Hmk as (f1 & Emk & Hd1 & Hanc & Ht1 & Hsame).
  assert (Hshort : forall k, target <> take k loc).
  { intros k E. apply (f_equal length) in E. unfold target in E.
    rewrite length_app, length_take in E. cbn in E. lia. }
  exists (<[target := RegularFile (run_hash_json (py_str (hash run)))]> f1).
  split.
  - unfold export_run_hash, callback_at, logger_info, logger_call. munfold.
    rewrite Hcb, Hdir. cbn. rewrite Emk. cbn.
    unfold os.open_w. rewrite (resolve_export_file _ _ Hloc). fold target.
    unfold target at 1. rewrite removelast_last. rewrite Hd1.
    assert (Hst : os.stat f1 target = fs w !! target).
    { unfold target. rewrite stat_child by discriminate. exact Ht1. }
    rewrite Hst.
    assert (Hnd : match fs w !! target with
                  | Some Directory => false | _ => true end = true).
    { unfold is_dir in Htarget. destruct (fs w !! target) as [[|?]|]; auto. }
    destruct (fs w !! target) as [[|c0]|] eqn:Et; try discriminate; cbn;
      rewrite Hcb, Hrun, Hlg; cbn; destruct lg; cbn;
      unfold os.write; rewrite lookup_insert_eq, insert_insert_eq;
      reflexivity.
  - exists loc. split; [assumption|]. split; [|split; [|split]].
    + rewrite stat_insert_ne; [assumption|].
      intros E. apply (Hshort (length loc)). now rewrite firstn_all.
    + intros Hn k. rewrite stat_insert_ne; auto.
    + apply lookup_insert_eq.
    + intros Hd. now rewrite (Hsame Hd).
Qed.

(** On a file system that does not let it, the export raises an
    [OSError]: [can_export] is exactly what the export needs of the file
    system. *)
Lemma export_run_hash_oserror w self cb dir :
  callbacks w !! self = Some cb ->
  run_id_export_path cb = Some dir ->
  can_export (fs w) dir = false ->
  exists w' kind p, export_run_hash self w = (w', Raised (OSError kind p)).
Proof.
  intros Hcb Hdir Hcan.
  unfold export_run_hash, callback_at. munfold. rewrite Hcb, Hdir.
  unfold can_export in Hcan. unfold os.path_exists, os.makedirs.
  destruct (posixpath.resolve dir) as [loc|] eqn:Hloc; [|cbn; eauto].
  set (target := loc ++ [AIM_HASH_EXPORT_DEFAULT_FILENAME]) in *.
  assert (Hopen : forall f1,
             os.stat f1 loc = Some Directory ->
             is_dir (os.stat f1 target) = true ->
             exists kind p,
               os.open_w (posixpath.join dir AIM_HASH_EXPORT_DEFAULT_FILENAME)
                 f1 = (f1, Raised (OSError kind p))).
  { intros f1 Hd Ht. unfold os.open_w.
    rewrite (resolve_export_file _ _ Hloc). fold target.
    unfold target at 1. rewrite removelast_last, Hd.
    destruct (os.stat f1 target) as [[|?]|]; try discriminate. eauto. }
  destruct (os.stat (fs w) loc) as [[|content]|] eqn:Hst; cbn.
  - destruct (Hopen (fs w) Hst) as (kind & p & E).
    { now apply negb_false_iff in Hcan. }
    replace (with_fs (fs w) w) with w by now destruct w.
    rewrite E. eauto.
  - unfold os.open_w. rewrite (resolve_export_file _ _ Hloc).
    rewrite removelast_last, Hst. eauto.
  - destruct (no_file_on_way (fs w) [] loc) eqn:Hway.
    + destruct (makedirs_from_ok dir loc [] (fs w) eq_refl Hway)
        as (f1 & Emk & Hks & Hkeep).
      rewrite Emk. cbn.
      destruct (Hopen f1) as (kind & p & E).
      * specialize (Hks (length loc)). now rewrite firstn_all in Hks.
      * cbn in Hcan. apply negb_false_iff in Hcan.
        unfold target in *. rewrite stat_child in * by discriminate.
        rewrite Hkeep; [assumption|].
        right. rewrite !length_app. cbn. lia.
      * rewrite E. eauto.
    + destruct (makedirs_from_fails dir loc [] (fs w) Hway)
        as (f' & kind & E).
      rewrite E. eauto.
Qed.

Lemma exported_fs_read f f' dir js :
  exported_fs f f' dir js ->
  os.path_isdir f' dir = true
  /\ os.read_file f' (posixpath.join dir AIM_HASH_EXPORT_DEFAULT_FILENAME)
     = Some js
  /\ os.read_file f' (dir +:+ "/aimstack_tracker.json") = Some js.
Proof.
  intros (loc & Hloc & Hd & _ & Ht & _).
  unfold os.path_isdir, os.read_file.
  rewrite Hloc, Hd, (resolve_export_file _ _ Hloc),
    (resolve_export_file_literal _ _ Hloc), stat_child, Ht by discriminate.
  auto.
Qed.

Lemma exported_fs_can_export f f' dir js :
  exported_fs f f' dir js -> can_export f' dir = true.
Proof.
  intros (loc & Hloc & Hd & _ & Ht & _). unfold can_export.
  rewrite Hloc, Hd, stat_child, Ht by discriminate. reflexivity.
Qed.

(** Exporting the same text again changes nothing. *)
Lemma exported_fs_again f f' f'' dir js :
  exported_fs f f' dir js -> exported_fs f' f'' dir js -> f'' = f'.
Proof.
  intros (loc & Hloc & Hd & _ & Ht & _) (loc' & Hloc' & _ & _ & _ & Hsame).
  assert (loc' = loc) as -> by congruence.
  rewrite (Hsame Hd). now apply insert_id.
Qed.

(** ** [on_init_end] *)

(** The world after [setup] and the callback in it. *)
Lemma on_init_end_after_setup w self cb :
  callbacks w !! self = Some cb ->
  exists w1 run,
    aim.setup self w = (w1, Ok tt)
    /\ callbacks w1 !! self = Some (set_experiment (Some run) cb)
    /\ callbacks w1 = <[self := set_experiment (Some run) cb]> (callbacks w)
    /\ trackers w1 = trackers w
    /\ fs w1 = fs w
    /\ log w1 = log w
    /\ aim_calls w1 = aim_calls w
    /\ (forall r, experiment cb = Some r -> run = r).
Proof.
  intros Hcb.
  destruct (setup_spec w self cb Hcb)
    as (w1 & run & Hsetup & Hcbs1 & Htr1 & Hfs1 & Hlog1 & Hcalls1 & Hrun).
  exists w1, run. repeat split; auto.
  - rewrite Hcbs1. eapply callbacks_lookup_insert, Hcb.
  - intros r Hr. apply (Hrun r Hr).
Qed.

(** A call with a directory to export to, on a file system that lets it:
    the call returns, the callback has its run and the directory as its
    [run_id_export_path], and the file system is that of
    [exported_fs]. *)
Lemma on_init_end_exports w self cb lg args dir :
  callbacks w !! self = Some cb ->
  logger cb = Some lg ->
  export_dir cb args = Some dir ->
  can_export (fs w) dir = true ->
  exists w' run,
    on_init_end self args w = (w', Ok tt)
    /\ callbacks w'
       = <[self := set_run_id_export_path (Some dir)
                     (set_experiment (Some run) cb)]> (callbacks w)
    /\ trackers w' = trackers w
    /\ exported_fs (fs w) (fs w') dir (run_hash_json (py_str (hash run)))
    /\ log w' = log w ++ [INFO_DUMPED dir]
    /\ aim_calls w' = aim_calls w
    /\ (forall r, experiment cb = Some r -> run = r).
Proof.
  intros Hcb Hlg Hdir Hcan.
  destruct (on_init_end_after_setup w self cb Hcb)
    as (w1 & run & Hsetup & Hcb1 & Hcbs1 & Htr1 & Hfs1 & Hlog1 & Hcalls1
        & Hrun).
  set (cb1 := set_experiment (Some run) cb) in *.
  assert (Hfields : experiment cb1 = Some run /\ logger cb1 = Some lg
                    /\ run_id_export_path cb1 = run_id_export_path cb)
    by (subst cb1; destruct cb; cbn in *; auto).
  destruct Hfields as (Hexp1 & Hlg1 & Hpath1).
  unfold on_init_end. munfold. rewrite Hsetup. unfold callback_at at 1.
  rewrite Hcb1, Hpath1. unfold export_dir in Hdir.
  destruct (run_id_export_path cb) as [p|] eqn:Hp.
  - injection Hdir as ->.
    destruct (export_run_hash_spec w1 self cb1 dir run lg) as (f' & E & Hexp);
      [assumption|congruence|assumption|assumption|congruence|].
    rewrite E. eexists _, run. split; [reflexivity|]. cbn.
    rewrite (set_run_id_export_path_id cb1) by congruence.
    rewrite <- Hfs1. repeat split; auto. now rewrite Hlog1.
  - rewrite Hdir. unfold update_callback, callback_at. munfold.
    rewrite Hcb1.
    set (cb2 := set_run_id_export_path (Some dir) cb1).
    set (w2 := with_callbacks (<[self := cb2]> (callbacks w1)) w1).
    destruct (export_run_hash_spec w2 self cb2 dir run lg) as (f' & E & Hexp).
    + subst w2. cbn. eapply callbacks_lookup_insert, Hcb1.
    + subst cb2. now destruct cb1.
    + subst cb2. now destruct cb1.
    + subst cb2. now destruct cb1.
    + subst w2. cbn. congruence.
    + rewrite E. eexists _, run. split; [reflexivity|]. subst w2. cbn in *.
      rewrite Hcbs1, list_insert_insert_eq.
      rewrite <- Hfs1. repeat split; auto. now rewrite Hlog1.
Qed.

(** The same call on a file system that does not let it raises an
    [OSError]. *)
Lemma on_init_end_oserror w self cb args dir :
  callbacks w !! self = Some cb ->
  export_dir cb args = Some dir ->
  can_export (fs w) dir = false ->
  exists w' kind p, on_init_end self args w = (w', Raised (OSError kind p)).
Proof.
  intros Hcb Hdir Hcan.
  destruct (on_init_end_after_setup w self cb Hcb)
    as (w1 & run & Hsetup & Hcb1 & _ & _ & Hfs1 & _).
  set (cb1 := set_experiment (Some run) cb) in *.
  unfold on_init_end. munfold. rewrite Hsetup.
  unfold callback_at at 1. rewrite Hcb1. unfold export_dir in Hdir.
  replace (run_id_export_path cb1) with (run_id_export_path cb)
    by now destruct cb.
  destruct (run_id_export_path cb) as [p|] eqn:Hp.
  - injection Hdir as ->.
    apply (export_run_hash_oserror w1 self cb1 dir); [assumption| |congruence].
    subst cb1. now destruct cb.
  - rewrite Hdir. unfold update_callback, callback_at. munfold. rewrite Hcb1.
    eapply export_run_hash_oserror.
    + cbn. eapply callbacks_lookup_insert, Hcb1.
    + reflexivity.
    + cbn. congruence.
Qed.

(** With the path stored in the callback, [args] is not looked at. *)
Lemma on_init_end_stored_path w self cb p args :
  callbacks w !! self = Some cb ->
  run_id_export_path cb = Some p ->
  on_init_end self args w = (aim.setup self;; export_run_hash self) w.
Proof.
  intros Hcb Hp.
  destruct (on_init_end_after_setup w self cb Hcb)
    as (w1 & run & Hsetup & Hcb1 & _).
  unfold on_init_end. munfold. rewrite Hsetup.
  unfold callback_at at 1. rewrite Hcb1.
  replace (run_id_export_path (set_experiment (Some run) cb)) with (Some p)
    by now destruct cb.
  reflexivity.
Qed.

(** The callback after a call has the directory of the call as its
    [run_id_export_path], whatever the outcome of the call. *)
Lemma on_init_end_path w self cb args dir :
  callbacks w !! self = Some cb ->
  export_dir cb args = Some dir ->
  exists cb',
    callbacks (exec (on_init_end self args) w) !! self = Some cb'
    /\ run_id_export_path cb' = Some dir
    /\ logger cb' = logger cb.
Proof.
  intros Hcb Hdir.
  destruct (on_init_end_after_setup w self cb Hcb)
    as (w1 & run & Hsetup & Hcb1 & _).
  set (cb1 := set_experiment (Some run) cb) in *.
  unfold on_init_end, exec. munfold. rewrite Hsetup.
  unfold callback_at at 1. rewrite Hcb1. unfold export_dir in Hdir.
  replace (run_id_export_path cb1) with (run_id_export_path cb)
    by now destruct cb.
  destruct (run_id_export_path cb) as [p|] eqn:Hp.
  - injection Hdir as ->. rewrite keeps_export_run_hash.
    exists cb1. split; [assumption|]. subst cb1. now destruct cb.
  - rewrite Hdir. unfold update_callback, callback_at. munfold. rewrite Hcb1.
    rewrite keeps_export_run_hash. cbn.
    eexists. split; [eapply callbacks_lookup_insert, Hcb1|].
    subst cb1. now destruct cb.
Qed.

(** And it keeps it through any further calls. *)
Lemma on_init_end_calls_path calls : forall w self cb dir,
  callbacks w !! self = Some cb ->
  run_id_export_path cb = Some dir ->
  exists cb',
    callbacks (on_init_end_calls self calls w) !! self = Some cb'
    /\ run_id_export_path cb' = Some dir
    /\ logger cb' = logger cb.
Proof.
  induction calls as [|args calls IH]; intros w self cb dir Hcb Hp.
  - exists cb. auto.
  - cbn. destruct (on_init_end_path w self cb args dir Hcb)
      as (cb' & Hcb' & Hp' & Hlg').
    { unfold export_dir. now rewrite Hp. }
    destruct (IH _ self cb' dir Hcb' Hp') as (cb'' & ? & ? & ?).
    exists cb''. repeat split; auto. congruence.
Qed.

(** ** The tracker *)

Lemma is_None_false v : is_None v = false <-> v <> PyNone.
Proof. destruct v; cbn; split; congruence. Qed.

Lemma is_None_true v : is_None v = true <-> v = PyNone.
Proof. destruct v; cbn; split; congruence. Qed.

(** [track] past its check of the arguments. *)
Lemma track_valid self metric name stage :
  metric <> PyNone -> name <> PyNone ->
  track self metric name stage =
    (callback ← get_attr_hf_callback self;
     cb ← callback_at callback;
     match experiment cb with
     | Some run =>
         aim.Run_track run metric name
           (PyDict [(PyStr "subset", default DEFAULT_STAGE stage)])
     | None => ret tt
     end).
Proof.
  intros Hm Hn. unfold track.
  apply is_None_false in Hm, Hn. now rewrite Hm, Hn.
Qed.

(** [set_params] past its checks of the argument. *)
Lemma set_params_dict self items name :
  set_params self (PyDict items) name =
    (callback ← get_attr_hf_callback self;
     cb ← callback_at callback;
     match experiment cb with
     | Some run =>
         for_each items
           (fun kv =>
              aim.Run_set run (default DEFAULT_NAME name, kv.1) kv.2 false)
     | None => ret tt
     end).
Proof. reflexivity. Qed.

(** The loop of [set_params]: one [set] call per item, in order. *)
Lemma for_each_Run_set run name items : forall w,
  for_each items (fun kv => aim.Run_set run (name, kv.1) kv.2 false) w
  = (with_aim_calls
       (aim_calls w
        ++ map (fun kv => RunSet run (name, kv.1) kv.2 false) items) w,
     Ok tt).
Proof.
  induction items as [|kv items IH]; intros w.
  - cbn. rewrite app_nil_r. now destruct w.
  - cbn [for_each map]. unfold bind. unfold aim.Run_set at 1, modify.
    rewrite IH. cbn. now rewrite <- app_assoc.
Qed.

(** [get_hf_callback] without a repository: the [else] branch, whatever
    the url. *)
Lemma get_hf_callback_no_repo w self t :
  trackers w !! self = Some t ->
  truthy (aim_repo (config t)) = false ->
  exists w',
    get_hf_callback self w = (w', Raised (ValueError MSG_NOT_SPECIFIED))
    /\ callbacks w'
       = callbacks w
         ++ match aim_url (config t) with
            | Some u => [aim.AimCallback_init u (cfg_experiment (config t))]
            | None => []
            end
    /\ trackers w' = trackers w
    /\ fs w' = fs w
    /\ aim_calls w' = aim_calls w
    /\ log w' = log w ++ [(ERROR, MSG_NOT_SPECIFIED_LOG)].
Proof.
  intros Ht Hrepo.
  unfold get_hf_callback, tracker_at, RunIDExporterAimCallback, new_callback,
    logger_error, logger_call.
  munfold. rewrite Ht, Hrepo.
  destruct (tracker_logger t).
  destruct (aim_url (config t)) as [u|]; cbn;
    (eexists; split; [reflexivity|]); cbn; rewrite ?app_nil_r;
    repeat split; eauto.
Qed.

(** The callback made for the url, when there is one: one more object in
    the store. *)
Lemma url_callback_step (url exp : option string) w :
  exists o,
    match url with
    | Some u => bind (RunIDExporterAimCallback u exp) (fun cb => ret (Some cb))
    | None => ret None
    end w
    = (with_callbacks
         (callbacks w
          ++ match url with
             | Some u => [aim.AimCallback_init u exp]
             | None => []
             end) w,
       Ok o).
Proof.
  destruct url as [u|].
  - eexists. reflexivity.
  - exists None. rewrite app_nil_r. unfold ret. now destruct w.
Qed.

(** [get_hf_callback] with a repository: the callback is constructed with
    it, gets the tracker's logger, and is stored in the tracker.  The
    export path of the configuration goes to [hash_export_path];
    [run_id_export_path] stays [None]. *)
Lemma get_hf_callback_repo w self t r :
  trackers w !! self = Some t ->
  aim_repo (config t) = Some r ->
  r <> "" ->
  exists w' l,
    get_hf_callback self w = (w', Ok l)
    /\ callbacks w' !! l
       = Some (mkCallback r (cfg_experiment (config t)) None None
                 (Some (tracker_logger t))
                 (Some (aim_run_id_export_path (config t))))
    /\ trackers w' = <[self := set_hf_callback l t]> (trackers w)
    /\ fs w' = fs w
    /\ log w' = log w
    /\ aim_calls w' = aim_calls w.
Proof.
  intros Ht Hrepo Hr.
  assert (Htruthy : truthy (aim_repo (config t)) = true).
  { rewrite Hrepo. cbn. apply negb_true_iff. now apply String.eqb_neq. }
  set (exp := cfg_experiment (config t)).
  destruct (url_callback_step (aim_url (config t)) exp w) as [o E0].
  set (cbs0 := callbacks w ++ _) in E0.
  set (l := length cbs0).
  set (c0 := aim.AimCallback_init r exp).
  set (c1 := set_hash_export_path (aim_run_id_export_path (config t)) c0).
  set (c2 := set_logger (Some (tracker_logger t)) c1).
  set (w0 := with_callbacks cbs0 w) in E0.
  set (w1 := with_callbacks (cbs0 ++ [c0]) w0).
  set (w2 := with_callbacks (<[l := c1]> (cbs0 ++ [c0])) w1).
  set (w3 := with_callbacks (<[l := c2]> (callbacks w2)) w2).
  set (w4 := with_trackers (<[self := set_hf_callback l t]> (trackers w)) w3).
  assert (Hl0 : (cbs0 ++ [c0]) !! l = Some c0)
    by apply list_lookup_middle, eq_refl.
  assert (Hlt : l < length (cbs0 ++ [c0]))
    by (now apply lookup_lt_Some in Hl0).
  exists w4, l. split; [|split].
  - unfold get_hf_callback. unfold mbind, M_bind.
    rewrite (bind_ok _ _ w w t) by (unfold tracker_at; now rewrite Ht).
    cbv zeta. rewrite Htruthy, Hrepo. cbn [default]. fold exp.
    rewrite (bind_ok _ _ w w0 o) by exact E0.
    rewrite (bind_ok _ _ w0 w1 l) by reflexivity.
    rewrite (bind_ok _ _ w1 w2 tt) by (now apply update_callback_ok).
    rewrite (bind_ok _ _ w2 w3 tt).
    2:{ apply update_callback_ok. cbn. now apply list_lookup_insert_eq. }
    rewrite (bind_ok _ _ w3 w4 tt) by exact (update_tracker_ok w3 self t _ Ht).
    reflexivity.
  - cbn. rewrite list_insert_insert_eq. now apply list_lookup_insert_eq.
  - auto.
Qed.

(** * The claims *)

(** C1 (the code departs from the claim): a configuration with [aim_url]
    set and [aim_repo] unset does not yield a callback.  Whatever the url,
    the experiment and the export path, [get_hf_callback] on a new tracker
    constructs a callback with the url, then takes the [else] branch of
    [if repo:], logs the error and raises [ValueError]; the callback made
    with the url stays in the store and the tracker gets no
    [hf_callback]. *)
Theorem get_hf_callback_url_only_raises :
  forall (w : World) (exp : option string) (url : string)
         (path : option string),
    let cfg := mkAimConfig exp (Some url) None path in
    exists w',
      (t ← AimStackTracker cfg; get_hf_callback t) w
      = (w', Raised (ValueError
                       "Aim tracker requested but repo or server is not specified."))
      /\ callbacks w' = callbacks w ++ [aim.AimCallback_init url exp]
      /\ log w' = log w ++ [(ERROR, MSG_NOT_SPECIFIED_LOG)]
      /\ (trackers w' !! length (trackers w)) ≫= hf_callback = None.
Proof.
  intros w exp url path cfg.
  set (t := mkTracker "aim" cfg RootLogger None).
  set (w0 := with_trackers (trackers w ++ [t]) w).
  assert (Ht : trackers w0 !! length (trackers w) = Some t)
    by apply list_lookup_middle, eq_refl.
  destruct (get_hf_callback_no_repo w0 _ t Ht eq_refl)
    as (w' & E & Hcbs & Htr & _ & _ & Hlog).
  exists w'. split; [|split; [|split]].
  - unfold mbind, M_bind. now rewrite (bind_ok _ _ w w0 (length (trackers w))).
  - exact Hcbs.
  - exact Hlog.
  - rewrite Htr, Ht. reflexivity.
Qed.

(** C2: with both [aim_repo] and [aim_url] unset, [get_hf_callback]
    raises [ValueError]: it returns no callback, makes none, stores none in
    the tracker, and logs the error. *)
Theorem get_hf_callback_unset_raises :
  forall (w : World) (self : ref) (t : Tracker),
    trackers w !! self = Some t ->
    aim_repo (config t) = None ->
    aim_url (config t) = None ->
    exists w',
      get_hf_callback self w
      = (w', Raised (ValueError
                       "Aim tracker requested but repo or server is not specified."))
      /\ callbacks w' = callbacks w
      /\ trackers w' = trackers w
      /\ fs w' = fs w
      /\ log w' = log w ++ [(ERROR, MSG_NOT_SPECIFIED_LOG)].
Proof.
  intros w self t Ht Hrepo Hurl.
  destruct (get_hf_callback_no_repo w self t Ht)
    as (w' & E & Hcbs & Htr & Hfs & _ & Hlog).
  { now rewrite Hrepo. }
  exists w'. rewrite Hurl, app_nil_r in Hcbs. auto.
Qed.

Lemma get_hf_callback_unset_raises_witness :
  (exists t, trackers example_unset_world !! 0 = Some t
             /\ aim_repo (config t) = None /\ aim_url (config t) = None)
  /\ exists w',
      get_hf_callback 0 example_unset_world
      = (w', Raised (ValueError
                       "Aim tracker requested but repo or server is not specified."))
      /\ callbacks w' = callbacks example_unset_world
      /\ trackers w' = trackers example_unset_world
      /\ fs w' = fs example_unset_world
      /\ log w' = log example_unset_world ++ [(ERROR, MSG_NOT_SPECIFIED_LOG)].
Proof.
  split.
  - eexists. repeat split; reflexivity.
  - eapply get_hf_callback_unset_raises; reflexivity.
Defined.

(** C3 (the code departs from the claim): the export path of the
    configuration does not reach [on_init_end].  [get_hf_callback]
    assigns it to [hash_export_path], an attribute nothing reads, and
    leaves [run_id_export_path], the field [on_init_end] reads, at
    [None].  So with [aim_run_id_export_path = "/export"] and
    [args.output_dir = "/out"] the hash goes to
    [/out/aimstack_tracker.json] and nothing is made at [/export]; and
    with no [args] the call logs that no path is set and writes
    nothing. *)
Theorem configured_export_path_not_used :
  (forall (w : World) (exp url : option string) (c : ascii) (r P : string),
      let cfg := mkAimConfig exp url (Some (String c r)) (Some P) in
      exists w' l cb,
        (t ← AimStackTracker cfg; get_hf_callback t) w = (w', Ok l)
        /\ callbacks w' !! l = Some cb
        /\ run_id_export_path cb = None
        /\ hash_export_path cb = Some (Some P))
  /\ (let cfg := mkAimConfig (Some "exp") None (Some "repo") (Some "/export") in
      let run args :=
        (t ← AimStackTracker cfg; cb ← get_hf_callback t; on_init_end cb args)
          (empty_world "0a1b2c3d") in
      let out := run (Some (mkTrainingArguments (Some "/out"))) in
      out.2 = Ok tt
      /\ os.read_file (fs out.1) "/out/aimstack_tracker.json"
         = Some (json.dumps [("run_hash", "0a1b2c3d")])
      /\ os.path_exists (fs out.1) "/export" = false
      /\ os.read_file (fs out.1) "/export/aimstack_tracker.json" = None
      /\ (run None).2 = Ok tt
      /\ fs (run None).1 = ∅
      /\ log (run None).1 = [(ERROR, MSG_NO_EXPORT_PATH)]).
Proof.
  split.
  - intros w exp url c r P cfg.
    set (t := mkTracker "aim" cfg RootLogger None).
    set (w0 := with_trackers (trackers w ++ [t]) w).
    assert (Ht : trackers w0 !! length (trackers w) = Some t)
      by apply list_lookup_middle, eq_refl.
    destruct (get_hf_callback_repo w0 _ t (String c r) Ht eq_refl)
      as (w' & l & E & Hcb & _); [discriminate|].
    exists w', l. eexists. split; [|split; [exact Hcb|split; reflexivity]].
    unfold mbind, M_bind.
    now rewrite (bind_ok _ _ w w0 (length (trackers w))).
  - vm_compute. repeat split; reflexivity.
Qed.





(** C6: [track] raises [ValueError] exactly when [metric] or [name] is
    [None]; otherwise, with a run attached to the tracker's callback, the
    run receives one [track] call, for [metric] under [name], with the
    context [{"subset": stage}], where [stage] is ["additional_metrics"]
    when the caller gives none; nothing else changes. *)
Theorem track_spec :
  forall (w : World) (self : ref) (metric name : PyVal)
         (stage : option PyVal),
    ((exists msg,
         outcome (track self metric name stage) w = Raised (ValueError msg))
     <-> metric = PyNone \/ name = PyNone)
    /\ (forall t l cb run,
           trackers w !! self = Some t ->
           hf_callback t = Some l ->
           callbacks w !! l = Some cb ->
           experiment cb = Some run ->
           metric <> PyNone ->
           name <> PyNone ->
           track self metric name stage w
           = (with_aim_calls
                (aim_calls w
                 ++ [RunTrack run metric name
                       (PyDict [(PyStr "subset",
                                 default (PyStr "additional_metrics") stage)])])
                w,
              Ok tt)).
Proof.
  intros w self metric name stage. split; [split|].
  - intros [msg H].
    destruct (is_None metric) eqn:Hm; [left; now apply is_None_true|].
    destruct (is_None name) eqn:Hn; [right; now apply is_None_true|].
    exfalso. apply is_None_false in Hm, Hn.
    rewrite track_valid in H by assumption.
    unfold get_attr_hf_callback, tracker_at, callback_at, aim.Run_track in H.
    munfold.
    destruct (trackers w !! self) as [t|]; cbn in H; [|discriminate].
    destruct (hf_callback t) as [l|]; cbn in H; [|discriminate].
    destruct (callbacks w !! l) as [cb|]; cbn in H; [|discriminate].
    destruct (experiment cb); cbn in H; discriminate.
  - intros [-> | ->]; unfold track, outcome; cbn; eauto.
    rewrite orb_true_r. cbn. eauto.
  - intros t l cb run Ht Hl Hcb Hrun Hm Hn.
    rewrite track_valid by assumption. unfold mbind, M_bind.
    rewrite (bind_ok _ _ w w l) by now apply (get_attr_hf_callback_ok w self t).
    rewrite (bind_ok _ _ w w cb) by now apply callback_at_ok.
    rewrite Hrun. reflexivity.
Qed.

Lemma track_spec_witness :
  (exists t cb run,
      trackers example_run_world !! 0 = Some t
      /\ hf_callback t = Some 0
      /\ callbacks example_run_world !! 0 = Some cb
      /\ experiment cb = Some run
      /\ track 0 (PyFloat 1 0) (PyStr "loss") None example_run_world
         = (with_aim_calls
              (aim_calls example_run_world
               ++ [RunTrack run (PyFloat 1 0) (PyStr "loss")
                     (PyDict [(PyStr "subset", PyStr "additional_metrics")])])
              example_run_world,
            Ok tt))
  /\ (exists msg,
         outcome (track 0 PyNone (PyStr "x") None) example_run_world
         = Raised (ValueError msg))
  /\ (exists msg,
         outcome (track 0 (PyFloat 1 0) PyNone None) example_run_world
         = Raised (ValueError msg)).
Proof.
  split; [|split].
  - eexists _, _, _.
    split; [reflexivity|]. split; [reflexivity|].
    split; [reflexivity|]. split; [reflexivity|].
    eapply (proj2 (track_spec example_run_world 0 (PyFloat 1 0) (PyStr "loss")
                     None)); try reflexivity; discriminate.
  - apply (proj1 (track_spec example_run_world 0 PyNone (PyStr "x") None)).
    now left.
  - apply (proj1 (track_spec example_run_world 0 (PyFloat 1 0) PyNone None)).
    now right.
Defined.

(** C7: [set_params] does nothing and returns when [params] is [None];
    it raises [ValueError], doing nothing else, when [params] is neither
    [None] nor a [dict]; and for a [dict], with a run attached to the
    tracker's callback, the run receives one [set] call per item, in the
    order of the items, with the key [(name, key)], the item's value and
    [strict=False], where [name] is ["extra_params"] when the caller gives
    none; nothing else changes. *)
Theorem set_params_spec :
  forall (w : World) (self : ref) (params : PyVal) (name : option PyVal),
    (params = PyNone -> set_params self params name w = (w, Ok tt))
    /\ (params <> PyNone -> isinstance_dict params = false ->
        exists msg,
          set_params self params name w = (w, Raised (ValueError msg)))
    /\ (forall items t l cb run,
           params = PyDict items ->
           trackers w !! self = Some t ->
           hf_callback t = Some l ->
           callbacks w !! l = Some cb ->
           experiment cb = Some run ->
           set_params self params name w
           = (with_aim_calls
                (aim_calls w
                 ++ map (fun kv =>
                           RunSet run
                             (default (PyStr "extra_params") name, kv.1)
                             kv.2 false)
                      items)
                w,
              Ok tt)).
Proof.
  intros w self params name. split; [|split].
  - now intros ->.
  - intros Hn Hd. apply is_None_false in Hn.
    unfold set_params. rewrite Hn, Hd. cbn. eauto.
  - intros items t l cb run -> Ht Hl Hcb Hrun.
    rewrite set_params_dict. unfold mbind, M_bind.
    rewrite (bind_ok _ _ w w l) by now apply (get_attr_hf_callback_ok w self t).
    rewrite (bind_ok _ _ w w cb) by now apply callback_at_ok.
    rewrite Hrun. apply for_each_Run_set.
Qed.

Lemma set_params_spec_witness :
  set_params 0 PyNone None example_run_world = (example_run_world, Ok tt)
  /\ (exists msg,
         set_params 0 (PyList [PyInt 1; PyInt 2]) None example_run_world
         = (example_run_world, Raised (ValueError msg)))
  /\ (exists t cb run,
         trackers example_run_world !! 0 = Some t
         /\ hf_callback t = Some 0
         /\ callbacks example_run_world !! 0 = Some cb
         /\ experiment cb = Some run
         /\ set_params 0 (PyDict [(PyStr "lr", PyFloat 1 (-7))]) None
              example_run_world
            = (with_aim_calls
                 (aim_calls example_run_world
                  ++ [RunSet run (PyStr "extra_params", PyStr "lr")
                        (PyFloat 1 (-7)) false])
                 example_run_world,
               Ok tt)).
Proof.
  split; [|split].
  - now apply (proj1 (set_params_spec example_run_world 0 PyNone None)).
  - apply (proj1 (proj2 (set_params_spec example_run_world 0
                           (PyList [PyInt 1; PyInt 2]) None)));
      [discriminate | reflexivity].
  - eexists _, _, _.
    split; [reflexivity|]. split; [reflexivity|].
    split; [reflexivity|]. split; [reflexivity|].
    apply (proj2 (proj2 (set_params_spec example_run_world 0
                     (PyDict [(PyStr "lr", PyFloat 1 (-7))]) None))
             [(PyStr "lr", PyFloat 1 (-7))] _ 0 _ _
             eq_refl eq_refl eq_refl eq_refl eq_refl).
Defined.

(** C8: while the tracker's callback has no run, [track] with a metric
    and a name, and [set_params] with a [dict], return and leave the world
    as it was: nothing reaches the Aim client and nothing is logged. *)
Theorem no_run_no_record :
  forall (w : World) (self : ref) (t : Tracker) (l : ref) (cb : Callback),
    trackers w !! self = Some t ->
    hf_callback t = Some l ->
    callbacks w !! l = Some cb ->
    experiment cb = None ->
    (forall metric name stage,
        metric <> PyNone -> name <> PyNone ->
        track self metric name stage w = (w, Ok tt))
    /\ (forall items name,
           set_params self (PyDict items) name w = (w, Ok tt)).
Proof.
  intros w self t l cb Ht Hl Hcb Hrun. split.
  - intros metric name stage Hm Hn.
    rewrite track_valid by assumption. unfold mbind, M_bind.
    rewrite (bind_ok _ _ w w l) by now apply (get_attr_hf_callback_ok w self t).
    rewrite (bind_ok _ _ w w cb) by now apply callback_at_ok.
    now rewrite Hrun.
  - intros items name.
    rewrite set_params_dict. unfold mbind, M_bind.
    rewrite (bind_ok _ _ w w l) by now apply (get_attr_hf_callback_ok w self t).
    rewrite (bind_ok _ _ w w cb) by now apply callback_at_ok.
    now rewrite Hrun.
Qed.

Lemma no_run_no_record_witness :
  (exists t cb,
      trackers example_tracker_world !! 0 = Some t
      /\ hf_callback t = Some 0
      /\ callbacks example_tracker_world !! 0 = Some cb
      /\ experiment cb = None)
  /\ track 0 (PyFloat 1 0) (PyStr "loss") None example_tracker_world
     = (example_tracker_world, Ok tt)
  /\ set_params 0 (PyDict [(PyStr "lr", PyFloat 1 (-7))]) None
       example_tracker_world
     = (example_tracker_world, Ok tt).
Proof.
  split.
  - eexists _, _. repeat split; reflexivity.
  - split.
    + eapply (proj1 (no_run_no_record example_tracker_world 0 _ 0 _
                       eq_refl eq_refl eq_refl eq_refl)); discriminate.
    + eapply (proj2 (no_run_no_record example_tracker_world 0 _ 0 _
                       eq_refl eq_refl eq_refl eq_refl)).
Defined.






(** * Further properties *)

(** ** [get_hf_callback] *)

(** [get_hf_callback] with a repository, in full: the store gets the
    callback made for the url, if any, and after it the callback
    returned. *)
Lemma get_hf_callback_repo_store w self t r :
  trackers w !! self = Some t ->
  aim_repo (config t) = Some r ->
  r <> "" ->
  let cbs0 :=
    callbacks w
    ++ match aim_url (config t) with
       | Some u => [aim.AimCallback_init u (cfg_experiment (config t))]
       | None => []
       end in
  exists w',
    get_hf_callback self w = (w', Ok (length cbs0))
    /\ callbacks w'
       = cbs0 ++ [mkCallback r (cfg_experiment (config t)) None None
                    (Some (tracker_logger t))
                    (Some (aim_run_id_export_path (config t)))]
    /\ trackers w' = <[self := set_hf_callback (length cbs0) t]> (trackers w)
    /\ fs w' = fs w
    /\ log w' = log w
    /\ aim_calls w' = aim_calls w.
Proof.
  intros Ht Hrepo Hr.
  assert (Htruthy : truthy (aim_repo (config t)) = true).
  { rewrite Hrepo. cbn. apply negb_true_iff. now apply String.eqb_neq. }
  set (exp := cfg_experiment (config t)).
  destruct (url_callback_step (aim_url (config t)) exp w) as [o E0].
  intros cbs0. fold cbs0 in E0.
  set (l := length cbs0).
  set (c0 := aim.AimCallback_init r exp).
  set (c1 := set_hash_export_path (aim_run_id_export_path (config t)) c0).
  set (c2 := set_logger (Some (tracker_logger t)) c1).
  set (w0 := with_callbacks cbs0 w) in E0.
  set (w1 := with_callbacks (cbs0 ++ [c0]) w0).
  set (w2 := with_callbacks (<[l := c1]> (cbs0 ++ [c0])) w1).
  set (w3 := with_callbacks (<[l := c2]> (callbacks w2)) w2).
  set (w4 := with_trackers (<[self := set_hf_callback l t]> (trackers w)) w3).
  assert (Hl0 : (cbs0 ++ [c0]) !! l = Some c0)
    by apply list_lookup_middle, eq_refl.
  assert (Hlt : l < length (cbs0 ++ [c0]))
    by (now apply lookup_lt_Some in Hl0).
  exists w4. split; [|split].
  - unfold get_hf_callback. unfold mbind, M_bind.
    rewrite (bind_ok _ _ w w t) by (unfold tracker_at; now rewrite Ht).
    cbv zeta. rewrite Htruthy, Hrepo. cbn [default]. fold exp.
    rewrite (bind_ok _ _ w w0 o) by exact E0.
    rewrite (bind_ok _ _ w0 w1 l) by reflexivity.
    rewrite (bind_ok _ _ w1 w2 tt) by (now apply update_callback_ok).
    rewrite (bind_ok _ _ w2 w3 tt).
    2:{ apply update_callback_ok. cbn. now apply list_lookup_insert_eq. }
    rewrite (bind_ok _ _ w3 w4 tt) by exact (update_tracker_ok w3 self t _ Ht).
    reflexivity.
  - cbn. rewrite list_insert_insert_eq. unfold l.
    rewrite <- (Nat.add_0_r (length cbs0)), insert_app_r. reflexivity.
  - auto.
Qed.

(** X1: [get_hf_callback] returns a callback exactly when [aim_repo] is a
    non-empty string; [aim_url] plays no part in it.  In every other case,
    the empty string included, it raises [ValueError]. *)
Theorem get_hf_callback_returns_iff_repo :
  forall (w : World) (self : ref) (t : Tracker),
    trackers w !! self = Some t ->
    ((exists w' l, get_hf_callback self w = (w', Ok l))
     <-> exists r, aim_repo (config t) = Some r /\ r <> "")
    /\ ((aim_repo (config t) = None \/ aim_repo (config t) = Some "") ->
        outcome (get_hf_callback self) w
        = Raised (ValueError
                    "Aim tracker requested but repo or server is not specified.")).
Proof.
  intros w self t Ht.
  assert (Hno : truthy (aim_repo (config t)) = false ->
                outcome (get_hf_callback self) w
                = Raised (ValueError MSG_NOT_SPECIFIED)).
  { intros H. destruct (get_hf_callback_no_repo w self t Ht H) as (w' & E & _).
    unfold outcome. now rewrite E. }
  split; [split|].
  - intros (w' & l & E).
    destruct (aim_repo (config t)) as [r|] eqn:Hr.
    + exists r. split; [reflexivity|]. intros ->.
      specialize (Hno eq_refl). unfold outcome in Hno. rewrite E in Hno.
      discriminate.
    + specialize (Hno eq_refl). unfold outcome in Hno. rewrite E in Hno.
      discriminate.
  - intros (r & Hr & Hne).
    destruct (get_hf_callback_repo w self t r Ht Hr Hne) as (w' & l & E & _).
    eauto.
  - intros [H | H]; apply Hno; now rewrite H.
Qed.

Lemma get_hf_callback_returns_iff_repo_witness :
  (exists t, trackers example_empty_repo_world !! 0 = Some t
             /\ aim_repo (config t) = Some ""
             /\ aim_url (config t) = Some "aim://10.0.0.1:53800")
  /\ outcome (get_hf_callback 0) example_empty_repo_world
     = Raised (ValueError
                 "Aim tracker requested but repo or server is not specified.")
  /\ exists w' l, get_hf_callback 0 example_tracker_world = (w', Ok l).
Proof.
  split; [|split].
  - eexists. repeat split; reflexivity.
  - eapply (proj2 (get_hf_callback_returns_iff_repo example_empty_repo_world
                     0 _ eq_refl)).
    now right.
  - eapply (proj1 (get_hf_callback_returns_iff_repo example_tracker_world
                     0 _ eq_refl)).
    exists "repo". split; [reflexivity|discriminate].
Defined.

(** X2: with a non-empty [aim_repo], [get_hf_callback] returns a callback
    constructed with the repository and the experiment of the
    configuration, also when [aim_url] is set; the callback has the
    tracker's logger, the tracker's [hf_callback] is the callback returned,
    and neither the file system nor the log nor the Aim client is
    touched. *)
Theorem get_hf_callback_uses_repo :
  forall (w : World) (self : ref) (t : Tracker) (r : string),
    trackers w !! self = Some t ->
    aim_repo (config t) = Some r ->
    r <> "" ->
    exists w' l cb,
      get_hf_callback self w = (w', Ok l)
      /\ callbacks w' !! l = Some cb
      /\ repo cb = r
      /\ experiment_name cb = cfg_experiment (config t)
      /\ logger cb = Some (tracker_logger t)
      /\ (trackers w' !! self) ≫= hf_callback = Some l
      /\ fs w' = fs w
      /\ log w' = log w
      /\ aim_calls w' = aim_calls w.
Proof.
  intros w self t r Ht Hr Hne.
  destruct (get_hf_callback_repo w self t r Ht Hr Hne)
    as (w' & l & E & Hcb & Htr & Hfs & Hlog & Hcalls).
  exists w', l. eexists. split; [exact E|]. split; [exact Hcb|].
  cbn. repeat split; auto.
  rewrite Htr, list_lookup_insert_eq by (now apply lookup_lt_Some in Ht).
  reflexivity.
Qed.

Lemma get_hf_callback_uses_repo_witness :
  exists w' l cb,
    get_hf_callback 0 example_tracker_world = (w', Ok l)
    /\ callbacks w' !! l = Some cb
    /\ repo cb = "repo"
    /\ experiment_name cb = Some "exp"
    /\ logger cb = Some RootLogger
    /\ (trackers w' !! 0) ≫= hf_callback = Some l
    /\ fs w' = fs example_tracker_world
    /\ log w' = log example_tracker_world
    /\ aim_calls w' = aim_calls example_tracker_world.
Proof.
  eapply (get_hf_callback_uses_repo example_tracker_world 0 _ "repo" eq_refl
            eq_refl).
  discriminate.
Defined.

(** X3: every successful [get_hf_callback] makes a new callback object:
    its reference is none of the store before the call, the objects that
    were in the store stay as they were, and the tracker's [hf_callback]
    moves to the new object.  A callback handed out before, and the run it
    may have, is no longer the one [track] and [set_params] look at. *)
Theorem get_hf_callback_makes_new_callback :
  forall (w : World) (self : ref) (t : Tracker) (r : string),
    trackers w !! self = Some t ->
    aim_repo (config t) = Some r ->
    r <> "" ->
    exists w' l,
      get_hf_callback self w = (w', Ok l)
      /\ length (callbacks w) <= l
      /\ (forall l0, l0 < length (callbacks w) ->
                     callbacks w' !! l0 = callbacks w !! l0)
      /\ (forall l0, hf_callback t = Some l0 ->
                     l0 < length (callbacks w) -> l <> l0)
      /\ (trackers w' !! self) ≫= hf_callback = Some l
      /\ get_attr_hf_callback self w' = (w', Ok l).
Proof.
  intros w self t r Ht Hr Hne.
  destruct (get_hf_callback_repo_store w self t r Ht Hr Hne)
    as (w' & E & Hcbs & Htr & _).
  set (cbs0 := callbacks w ++ _) in *.
  assert (Hlen : length (callbacks w) <= length cbs0).
  { unfold cbs0. rewrite length_app. lia. }
  assert (Hnew : trackers w' !! self = Some (set_hf_callback (length cbs0) t)).
  { rewrite Htr. apply list_lookup_insert_eq. now apply lookup_lt_Some in Ht. }
  exists w', (length cbs0). split; [exact E|]. split; [exact Hlen|].
  split; [|split; [|split]].
  - intros l0 Hl0. rewrite Hcbs. unfold cbs0.
    rewrite <- app_assoc. now rewrite lookup_app_l.
  - intros l0 _ Hl0. lia.
  - now rewrite Hnew.
  - now apply (get_attr_hf_callback_ok w' self _ (length cbs0) Hnew).
Qed.

Lemma get_hf_callback_makes_new_callback_witness :
  exists w' l,
    get_hf_callback 0 example_run_world = (w', Ok l)
    /\ length (callbacks example_run_world) <= l
    /\ (forall l0, l0 < length (callbacks example_run_world) ->
                   callbacks w' !! l0 = callbacks example_run_world !! l0)
    /\ (forall l0, Some 0 = Some l0 ->
                   l0 < length (callbacks example_run_world) -> l <> l0)
    /\ (trackers w' !! 0) ≫= hf_callback = Some l
    /\ get_attr_hf_callback 0 w' = (w', Ok l).
Proof.
  eapply (get_hf_callback_makes_new_callback example_run_world 0 _ "repo"
            eq_refl eq_refl).
  discriminate.
Defined.

(** ** [on_init_end] *)

(** The export up to its last step, the call of the logger, whatever the
    callback's [logger] is. *)
Lemma export_run_hash_then_log w self cb dir run :
  callbacks w !! self = Some cb ->
  run_id_export_path cb = Some dir ->
  experiment cb = Some run ->
  can_export (fs w) dir = true ->
  exists f',
    export_run_hash self w
    = logger_info (logger cb)
        ("Aimstack tracker run hash id dumped to "
         +:+ posixpath.join dir AIM_HASH_EXPORT_DEFAULT_FILENAME)
        (with_fs f' w)
    /\ exported_fs (fs w) f' dir (run_hash_json (py_str (hash run))).
Proof.
  intros Hcb Hdir Hrun Hcan.
  destruct (can_export_inv _ _ Hcan) as (loc & Hloc & Hstat & Htarget).
  set (target := loc ++ [AIM_HASH_EXPORT_DEFAULT_FILENAME]) in *.
  assert (Hmk : exists f1,
             (if negb (os.path_exists (fs w) dir)
              then lift_os (os.makedirs dir) else ret tt) w
             = (with_fs f1 w, Ok tt)
             /\ os.stat f1 loc = Some Directory
             /\ (os.stat (fs w) loc = None ->
                 forall k, os.stat f1 (take k loc) = Some Directory)
             /\ f1 !! target = fs w !! target
             /\ (os.stat (fs w) loc = Some Directory -> f1 = fs w)).
  { unfold os.path_exists, os.makedirs, lift_os. rewrite Hloc.
    destruct Hstat as [Hd | [Hn Hway]].
    - rewrite Hd. cbn. exists (fs w). destruct w.
      repeat split; auto. congruence.
    - rewrite Hn. cbn.
      destruct (makedirs_from_ok dir loc [] (fs w) eq_refl Hway)
        as (f1 & E & Hks & Hkeep).
      rewrite E. exists f1. split; [reflexivity|].
      split; [|split; [|split]].
      + specialize (Hks (length loc)). now rewrite firstn_all in Hks.
      + intros _ k. apply Hks.
      + apply Hkeep. right. unfold target. rewrite !length_app. cbn. lia.
      + congruence. }
  destruct Hmk as (f1 & Emk & Hd1 & Hanc & Ht1 & Hsame).
  assert (Hshort : forall k, target <> take k loc).
  { intros k E. apply (f_equal length) in E. unfold target in E.
    rewrite length_app, length_take in E. cbn in E. lia. }
  exists (<[target := RegularFile (run_hash_json (py_str (hash run)))]> f1).
  split.
  - unfold export_run_hash, callback_at. munfold.
    rewrite Hcb, Hdir. cbn. rewrite Emk. cbn.
    unfold os.open_w. rewrite (resolve_export_file _ _ Hloc). fold target.
    unfold target at 1. rewrite removelast_last. rewrite Hd1.
    assert (Hst : os.stat f1 target = fs w !! target).
    { unfold target. rewrite stat_child by discriminate. exact Ht1. }
    rewrite Hst.
    assert (Hnd : match fs w !! target with
                  | Some Directory => false | _ => true end = true).
    { unfold is_dir in Htarget. destruct (fs w !! target) as [[|?]|]; auto. }
    destruct (fs w !! target) as [[|c0]|] eqn:Et; try discriminate; cbn;
      rewrite Hcb, Hrun; cbn;
      unfold os.write; rewrite lookup_insert_eq, insert_insert_eq;
      reflexivity.
  - exists loc. split; [assumption|]. split; [|split; [|split]].
    + rewrite stat_insert_ne; [assumption|].
      intros E. apply (Hshort (length loc)). now rewrite firstn_all.
    + intros Hn k. rewrite stat_insert_ne; auto.
    + apply lookup_insert_eq.
    + intros Hd. now rewrite (Hsame Hd).
Qed.

(** [on_init_end] with a directory to export to, up to the call of the
    logger. *)
Lemma on_init_end_then_log w self cb args dir :
  callbacks w !! self = Some cb ->
  export_dir cb args = Some dir ->
  can_export (fs w) dir = true ->
  exists w1 f' run,
    on_init_end self args w
    = logger_info (logger cb)
        ("Aimstack tracker run hash id dumped to "
         +:+ posixpath.join dir AIM_HASH_EXPORT_DEFAULT_FILENAME)
        (with_fs f' w1)
    /\ exported_fs (fs w) f' dir (run_hash_json (py_str (hash run)))
    /\ callbacks w1
       = <[self := set_run_id_export_path (Some dir)
                     (set_experiment (Some run) cb)]> (callbacks w)
    /\ trackers w1 = trackers w
    /\ log w1 = log w
    /\ aim_calls w1 = aim_calls w.
Proof.
  intros Hcb Hdir Hcan.
  destruct (on_init_end_after_setup w self cb Hcb)
    as (w1 & run & Hsetup & Hcb1 & Hcbs1 & Htr1 & Hfs1 & Hlog1 & Hcalls1
        & Hrun).
  set (cb1 := set_experiment (Some run) cb) in *.
  assert (Hfields : experiment cb1 = Some run /\ logger cb1 = logger cb
                    /\ run_id_export_path cb1 = run_id_export_path cb)
    by (subst cb1; destruct cb; cbn in *; auto).
  destruct Hfields as (Hexp1 & Hlg1 & Hpath1).
  unfold on_init_end. munfold. rewrite Hsetup. unfold callback_at at 1.
  rewrite Hcb1, Hpath1. unfold export_dir in Hdir.
  destruct (run_id_export_path cb) as [p|] eqn:Hp.
  - injection Hdir as ->.
    destruct (export_run_hash_then_log w1 self cb1 dir run) as (f' & E & Hexp);
      [assumption|congruence|assumption|congruence|].
    rewrite E, Hlg1. exists w1, f', run. split; [reflexivity|].
    rewrite (set_run_id_export_path_id cb1) by congruence.
    rewrite <- Hfs1. auto.
  - rewrite Hdir. unfold update_callback, callback_at. munfold.
    rewrite Hcb1.
    set (cb2 := set_run_id_export_path (Some dir) cb1).
    set (w2 := with_callbacks (<[self := cb2]> (callbacks w1)) w1).
    destruct (export_run_hash_then_log w2 self cb2 dir run) as (f' & E & Hexp).
    + subst w2. cbn. eapply callbacks_lookup_insert, Hcb1.
    + subst cb2. now destruct cb1.
    + subst cb2. now destruct cb1.
    + subst w2. cbn. congruence.
    + rewrite E. exists w2, f', run.
      replace (logger cb2) with (logger cb)
        by (subst cb2; destruct cb1; cbn in *; congruence).
      split; [reflexivity|]. subst w2. cbn in *.
      rewrite Hcbs1, list_insert_insert_eq.
      rewrite <- Hfs1. auto.
Qed.







(** ** What [on_init_end] leaves alone *)

Lemma stat_None (f : FS) loc : os.stat f loc = None -> f !! loc = None.
Proof.
  unfold os.stat. destruct loc as [|r [|r' l]]; [discriminate| |auto].
  now destruct (String.eqb r "/").
Qed.

(** [makedirs_from] only adds directories where nothing was. *)
Lemma makedirs_from_keeps p rest : forall pre (f : FS) loc e,
  f !! loc = Some e -> (os.makedirs_from p pre rest f).1 !! loc = Some e.
Proof.
  induction rest as [|c rest IH]; intros pre f loc e Hloc; [exact Hloc|].
  cbn [os.makedirs_from].
  destruct (os.stat f (pre ++ [c])) as [[|content]|] eqn:E.
  - now apply IH.
  - exact Hloc.
  - apply IH. rewrite lookup_insert_ne; [exact Hloc|].
    intros <-. apply stat_None in E. congruence.
Qed.

(** The export file's place ends with the export file's name. *)
Lemma export_target_last dir t :
  posixpath.resolve (posixpath.join dir AIM_HASH_EXPORT_DEFAULT_FILENAME)
  = Some t ->
  last t = Some AIM_HASH_EXPORT_DEFAULT_FILENAME.
Proof.
  destruct dir as [|c dir].
  - intros [= <-]. reflexivity.
  - assert (Hloc : exists loc, posixpath.resolve (String c dir) = Some loc)
      by (unfold posixpath.resolve; cbn [String.eqb]; eauto).
    destruct Hloc as [loc Hloc].
    rewrite (resolve_export_file _ _ Hloc). intros [= <-]. apply last_snoc.
Qed.

Lemma keeps_other_entries_ret {A} (a : A) : keeps_other_entries (ret a).
Proof. now intros w loc e _ H. Qed.

Lemma keeps_other_entries_raise {A} e : keeps_other_entries (@raise A e).
Proof. now intros w loc e' _ H. Qed.

Lemma keeps_other_entries_bind {A B} (m : M A) (k : A -> M B) :
  keeps_other_entries m -> (forall a, keeps_other_entries (k a)) ->
  keeps_other_entries (bind m k).
Proof.
  intros Hm Hk w loc e Hlast Hloc. unfold bind.
  specialize (Hm w loc e Hlast Hloc).
  destruct (m w) as [w' [a|x]]; cbn in *; [|assumption].
  now apply Hk.
Qed.

(** A step that does not write to the file system. *)
Lemma keeps_other_entries_same_fs {A} (m : M A) :
  (forall w, fs (m w).1 = fs w) -> keeps_other_entries m.
Proof. intros H w loc e _ Hloc. now rewrite H. Qed.

Lemma same_fs_callback_at l w : fs (callback_at l w).1 = fs w.
Proof. unfold callback_at. now destruct (callbacks w !! l). Qed.

Lemma same_fs_update_callback l g w : fs (update_callback l g w).1 = fs w.
Proof.
  unfold update_callback, callback_at. munfold.
  now destruct (callbacks w !! l).
Qed.

Lemma same_fs_setup l w : fs (aim.setup l w).1 = fs w.
Proof.
  unfold aim.setup, aim.new_run, update_callback, callback_at. munfold.
  destruct (callbacks w !! l) as [cb|] eqn:E; [|reflexivity].
  destruct (experiment cb); [reflexivity|]. cbn. now rewrite E.
Qed.

Lemma same_fs_logger_call lg lvl method msg w :
  fs (logger_call lg lvl method msg w).1 = fs w.
Proof. now destruct lg as [[]|]. Qed.

Lemma keeps_other_entries_makedirs dir :
  keeps_other_entries (lift_os (os.makedirs dir)).
Proof.
  intros w loc e _ Hloc. unfold lift_os, os.makedirs.
  destruct (posixpath.resolve dir) as [l|]; [|exact Hloc].
  pose proof (makedirs_from_keeps dir l [] (fs w) loc e Hloc) as H.
  destruct (os.makedirs_from dir [] l (fs w)). exact H.
Qed.

(** Opening the export file and what is done with the handle. *)
Lemma keeps_other_entries_open {B} dir (k : list string -> M B) :
  (forall h,
      last h = Some AIM_HASH_EXPORT_DEFAULT_FILENAME ->
      keeps_other_entries (k h)) ->
  keeps_other_entries
    (bind (lift_os (os.open_w
                      (posixpath.join dir AIM_HASH_EXPORT_DEFAULT_FILENAME)))
       k).
Proof.
  intros Hk w loc e Hlast Hloc. unfold bind, lift_os, os.open_w.
  destruct (posixpath.resolve
              (posixpath.join dir AIM_HASH_EXPORT_DEFAULT_FILENAME))
    as [t|] eqn:Ht; [|exact Hloc].
  pose proof (export_target_last _ _ Ht) as Hlt.
  destruct (os.stat (fs w) (removelast t)) as [[|?]|]; try exact Hloc.
  assert (Hins : fs (with_fs (<[t := RegularFile ""]> (fs w)) w) !! loc
                 = Some e).
  { cbn. rewrite lookup_insert_ne; [exact Hloc|]. intros ->. congruence. }
  destruct (os.stat (fs w) t) as [[|?]|]; try exact Hloc;
    apply (Hk t Hlt _ loc e Hlast Hins).
Qed.

Lemma keeps_other_entries_write h s :
  last h = Some AIM_HASH_EXPORT_DEFAULT_FILENAME ->
  keeps_other_entries
    (modify (fun w => with_fs (os.write h s (fs w)) w)).
Proof.
  intros Hh w loc e Hlast Hloc. cbn. unfold os.write.
  destruct (fs w !! h) as [[|c]|]; try exact Hloc.
  rewrite lookup_insert_ne; [exact Hloc|]. intros ->. congruence.
Qed.

Lemma keeps_other_entries_export self :
  keeps_other_entries (export_run_hash self).
Proof.
  unfold export_run_hash, logger_info, mbind, M_bind.
  apply keeps_other_entries_bind.
  { apply keeps_other_entries_same_fs, same_fs_callback_at. }
  intros cb.
  destruct (run_id_export_path cb) as [dir|];
    [|apply keeps_other_entries_raise].
  apply keeps_other_entries_bind; [now apply keeps_other_entries_same_fs|].
  intros ex. apply keeps_other_entries_bind.
  { destruct (negb ex);
      [apply keeps_other_entries_makedirs | apply keeps_other_entries_ret]. }
  intros _. apply keeps_other_entries_open. intros h Hh.
  apply keeps_other_entries_bind.
  { apply keeps_other_entries_same_fs, same_fs_callback_at. }
  intros cb'.
  destruct (experiment cb') as [run|]; [|apply keeps_other_entries_raise].
  apply keeps_other_entries_bind; [now apply keeps_other_entries_write|].
  intros _. apply keeps_other_entries_same_fs, same_fs_logger_call.
Qed.

(** X7: whatever the callback, the arguments and the outcome of the call,
    [on_init_end] changes and removes no entry of the file system other
    than one named [aimstack_tracker.json]: the directories it makes are
    made where nothing was, and the only file it opens is the export
    file. *)
Theorem on_init_end_keeps_other_entries :
  forall (w : World) (self : ref) (args : option TrainingArguments)
         (loc : list string) (e : Entry),
    last loc <> Some AIM_HASH_EXPORT_DEFAULT_FILENAME ->
    fs w !! loc = Some e ->
    fs (exec (on_init_end self args) w) !! loc = Some e.
Proof.
  intros w self args.
  assert (H : keeps_other_entries (on_init_end self args)).
  { unfold on_init_end, logger_error, mbind, M_bind.
    apply keeps_other_entries_bind.
    { apply keeps_other_entries_same_fs, same_fs_setup. }
    intros _. apply keeps_other_entries_bind.
    { apply keeps_other_entries_same_fs, same_fs_callback_at. }
    intros cb.
    destruct (run_id_export_path cb); [apply keeps_other_entries_export|].
    destruct (args_output_dir args) as [d|].
    - apply keeps_other_entries_bind; [|intros _; apply keeps_other_entries_export].
      apply keeps_other_entries_same_fs, same_fs_update_callback.
    - apply keeps_other_entries_same_fs, same_fs_logger_call. }
  intros loc e. apply H.
Qed.

Lemma on_init_end_keeps_other_entries_witness :
  fs example_other_file_world !! ["/"; "out"; "notes.txt"]
  = Some (RegularFile "keep")
  /\ fs (exec (on_init_end 0 (Some (mkTrainingArguments (Some "/out"))))
           example_other_file_world)
     !! ["/"; "out"; "notes.txt"] = Some (RegularFile "keep")
  /\ os.read_file
       (fs (exec (on_init_end 0 (Some (mkTrainingArguments (Some "/out"))))
              example_other_file_world))
       "/out/aimstack_tracker.json"
     = Some (json.dumps [("run_hash", "0a1b2c3d")]).
Proof.
  split; [reflexivity|]. split; [|reflexivity].
  apply (on_init_end_keeps_other_entries example_other_file_world 0
           (Some (mkTrainingArguments (Some "/out")))
           ["/"; "out"; "notes.txt"] (RegularFile "keep"));
    [discriminate | reflexivity].
Defined.

(** The components of the world [on_init_end] does not write to: any
    that [setup], the assignment to the callback, the file system and the
    log do not reach. *)
Lemma keeps_field_bind {A B C} (proj : World -> C) (m : M A) (k : A -> M B) :
  keeps_field proj m -> (forall a, keeps_field proj (k a)) ->
  keeps_field proj (bind m k).
Proof.
  intros Hm Hk w. unfold bind. specialize (Hm w).
  destruct (m w) as [w' [a|x]]; cbn in *; [|assumption].
  now rewrite Hk.
Qed.

Section field.

Context {C : Type} (proj : World -> C) (self : ref).
Hypothesis proj_fs : forall f w, proj (with_fs f w) = proj w.
Hypothesis proj_log : forall l w, proj (with_log l w) = proj w.
Hypothesis proj_runs : forall n w, proj (with_aim_runs n w) = proj w.
Hypothesis proj_self :
  forall cb w, proj (with_callbacks (<[self := cb]> (callbacks w)) w) = proj w.

Lemma keeps_field_callback_at l : keeps_field proj (callback_at l).
Proof. intros w. unfold callback_at. now destruct (callbacks w !! l). Qed.

Lemma keeps_field_update_self g : keeps_field proj (update_callback self g).
Proof using proj_self.
  intros w. unfold update_callback, callback_at. munfold.
  destruct (callbacks w !! self); [|reflexivity]. cbn. apply proj_self.
Qed.

Lemma keeps_field_lift_os {A} (op : FS -> FS * result A) :
  keeps_field proj (lift_os op).
Proof using proj_fs.
  intros w. unfold lift_os. destruct (op (fs w)). cbn. apply proj_fs.
Qed.

Lemma keeps_field_logger_call lg lvl method msg :
  keeps_field proj (logger_call lg lvl method msg).
Proof using proj_log.
  intros w. destruct lg as [[]|]; [|reflexivity]. cbn. apply proj_log.
Qed.

Lemma keeps_field_setup : keeps_field proj (aim.setup self).
Proof using proj_runs proj_self.
  unfold aim.setup, mbind, M_bind.
  apply keeps_field_bind; [apply keeps_field_callback_at|]. intros cb.
  destruct (experiment cb); [now intros w|].
  apply keeps_field_bind; [intros w; cbn; apply proj_runs|].
  intros run. apply keeps_field_update_self.
Qed.

Lemma keeps_field_export : keeps_field proj (export_run_hash self).
Proof using proj_fs proj_log.
  unfold export_run_hash, logger_info, mbind, M_bind.
  apply keeps_field_bind; [apply keeps_field_callback_at|]. intros cb.
  destruct (run_id_export_path cb) as [dir|]; [|now intros w].
  apply keeps_field_bind; [now intros w|]. intros ex.
  apply keeps_field_bind.
  { destruct (negb ex); [apply keeps_field_lift_os | now intros w]. }
  intros _. apply keeps_field_bind; [apply keeps_field_lift_os|]. intros f.
  apply keeps_field_bind; [apply keeps_field_callback_at|]. intros cb'.
  destruct (experiment cb') as [run|]; [|now intros w].
  apply keeps_field_bind; [intros w; cbn; apply proj_fs|].
  intros _. apply keeps_field_logger_call.
Qed.

Lemma keeps_field_on_init_end args : keeps_field proj (on_init_end self args).
Proof using proj_fs proj_log proj_runs proj_self.
  unfold on_init_end, logger_error, mbind, M_bind.
  apply keeps_field_bind; [apply keeps_field_setup|]. intros _.
  apply keeps_field_bind; [apply keeps_field_callback_at|]. intros cb.
  destruct (run_id_export_path cb); [apply keeps_field_export|].
  destruct (args_output_dir args) as [d|].
  - apply keeps_field_bind; [apply keeps_field_update_self|].
    intros _. apply keeps_field_export.
  - apply keeps_field_logger_call.
Qed.

End field.

(** X8: whatever the arguments and the outcome of the call,
    [on_init_end] on one callback leaves every other callback of the store
    as it is, and every tracker, and sends nothing to the Aim client's
    runs. *)
Theorem on_init_end_touches_only_its_callback :
  forall (w : World) (self : ref) (args : option TrainingArguments),
    let w' := exec (on_init_end self args) w in
    (forall l, l <> self -> callbacks w' !! l = callbacks w !! l)
    /\ trackers w' = trackers w
    /\ aim_calls w' = aim_calls w.
Proof.
  intros w self args w'. split; [|split].
  - intros l Hl.
    apply (keeps_field_on_init_end (fun w => callbacks w !! l) self); auto.
    intros cb w0. cbn. now apply list_lookup_insert_ne.
  - now apply (keeps_field_on_init_end trackers self).
  - now apply (keeps_field_on_init_end aim_calls self).
Qed.

Lemma on_init_end_touches_only_its_callback_witness :
  (forall l, l <> 1 ->
             callbacks (exec (on_init_end 1 example_args)
                          example_two_callbacks_world) !! l
             = callbacks example_two_callbacks_world !! l)
  /\ (exists cb run, callbacks example_two_callbacks_world !! 0 = Some cb
                     /\ experiment cb = Some run)
  /\ trackers (exec (on_init_end 1 example_args) example_two_callbacks_world)
     = trackers example_two_callbacks_world.
Proof.
  split; [|split].
  - apply (on_init_end_touches_only_its_callback example_two_callbacks_world
             1 example_args).
  - eexists _, _. split; reflexivity.
  - apply (on_init_end_touches_only_its_callback example_two_callbacks_world
             1 example_args).
Defined.

(** ** Calls that follow one another *)

Lemma on_init_end_calls_cons self args later w :
  on_init_end_calls self (args :: later) w
  = on_init_end_calls self later (exec (on_init_end self args) w).
Proof. reflexivity. Qed.

(** After a first export, any further calls export the same text to the
    same place. *)
Lemma on_init_end_calls_again later : forall w1 self cb1 lg dir run f0,
  callbacks w1 !! self = Some cb1 ->
  run_id_export_path cb1 = Some dir ->
  experiment cb1 = Some run ->
  logger cb1 = Some lg ->
  exported_fs f0 (fs w1) dir (run_hash_json (py_str (hash run))) ->
  let wk := on_init_end_calls self later w1 in
  fs wk = fs w1
  /\ callbacks wk = callbacks w1
  /\ log wk = log w1 ++ replicate (length later) (INFO_DUMPED dir).
Proof.
  induction later as [|args later IH];
    intros w1 self cb1 lg dir run f0 Hcb Hp Hrun Hlg Hfs.
  - cbn. now rewrite app_nil_r.
  - cbv zeta. rewrite on_init_end_calls_cons.
    destruct (on_init_end_exports w1 self cb1 lg args dir Hcb Hlg)
      as (w2 & run2 & E & Hcbs & _ & Hfs2 & Hlog & _ & Hrun2).
    { unfold export_dir. now rewrite Hp. }
    { eapply exported_fs_can_export, Hfs. }
    assert (run2 = run) as -> by now apply Hrun2.
    rewrite (set_experiment_id cb1 run Hrun) in Hcbs.
    rewrite (set_run_id_export_path_id cb1 _ Hp) in Hcbs.
    assert (Hcbs' : callbacks w2 = callbacks w1)
      by (rewrite Hcbs; now apply list_insert_id).
    clear Hcbs. rename Hcbs' into Hcbs.
    assert (Hsame : fs w2 = fs w1) by (eapply exported_fs_again; eassumption).
    unfold exec. rewrite E. cbn [fst].
    destruct (IH w2 self cb1 lg dir run f0) as (H1 & H2 & H3);
      try assumption.
    { now rewrite Hcbs. }
    { now rewrite Hsame. }
    rewrite H1, H2, H3, Hsame, Hcbs, Hlog. cbn [length replicate].
    rewrite <- app_assoc. auto.
Qed.



(** [track] with a run attached. *)
Lemma track_records w self t l cb run metric name stage :
  trackers w !! self = Some t ->
  hf_callback t = Some l ->
  callbacks w !! l = Some cb ->
  experiment cb = Some run ->
  metric <> PyNone ->
  name <> PyNone ->
  track self metric name stage w
  = (with_aim_calls
       (aim_calls w
        ++ [RunTrack run metric name
              (PyDict [(PyStr "subset", default DEFAULT_STAGE stage)])])
       w,
     Ok tt).
Proof.
  intros Ht Hl Hcb Hrun Hm Hn.
  rewrite track_valid by assumption. unfold mbind, M_bind.
  rewrite (bind_ok _ _ w w l) by now apply (get_attr_hf_callback_ok w self t).
  rewrite (bind_ok _ _ w w cb) by now apply callback_at_ok.
  now rewrite Hrun.
Qed.



(** ** [track] and [set_params] *)

(** [set_params] with a [dict], by what the tracker's callback is. *)
Lemma set_params_dict_cases w self items name :
  (exists e, set_params self (PyDict items) name w = (w, Raised e)
             /\ forall items',
                 set_params self (PyDict items') name w = (w, Raised e))
  \/ (set_params self (PyDict items) name w = (w, Ok tt)
      /\ forall items' c,
          set_params self (PyDict items') name (with_aim_calls c w)
          = (with_aim_calls c w, Ok tt))
  \/ (exists run,
         forall items' c,
           set_params self (PyDict items') name (with_aim_calls c w)
           = (with_aim_calls
                (c ++ map (fun kv =>
                             RunSet run (default DEFAULT_NAME name, kv.1)
                               kv.2 false) items')
                w,
              Ok tt)).
Proof.
  assert (Hgen : forall items' c,
             set_params self (PyDict items') name (with_aim_calls c w)
             = match trackers w !! self with
               | None => (with_aim_calls c w, Raised (ReferenceError self))
               | Some t =>
                   match hf_callback t with
                   | None =>
                       (with_aim_calls c w,
                        Raised (AttributeError
                                  "'AimStackTracker' object has no attribute 'hf_callback'"))
                   | Some l =>
                       match callbacks w !! l with
                       | None => (with_aim_calls c w, Raised (ReferenceError l))
                       | Some cb =>
                           match experiment cb with
                           | None => (with_aim_calls c w, Ok tt)
                           | Some run =>
                               (with_aim_calls
                                  (c ++ map (fun kv =>
                                               RunSet run
                                                 (default DEFAULT_NAME name,
                                                  kv.1) kv.2 false) items')
                                  w,
                                Ok tt)
                           end
                       end
                   end
               end).
  { intros items' c. rewrite set_params_dict.
    unfold get_attr_hf_callback, tracker_at, callback_at. munfold. cbn.
    destruct (trackers w !! self) as [t|]; [|reflexivity].
    destruct (hf_callback t) as [l|]; [|reflexivity]. cbn.
    destruct (callbacks w !! l) as [cb|]; [|reflexivity].
    destruct (experiment cb) as [run|]; [|reflexivity].
    rewrite for_each_Run_set. reflexivity. }
  assert (Hw : with_aim_calls (aim_calls w) w = w) by now destruct w.
  assert (Hgen0 : forall items',
             set_params self (PyDict items') name w
             = set_params self (PyDict items') name
                 (with_aim_calls (aim_calls w) w)) by now rewrite Hw.
  destruct (trackers w !! self) as [t|] eqn:Ht.
  2:{ left. eexists. split; [|intros items']; rewrite Hgen0, Hgen, Hw;
        reflexivity. }
  destruct (hf_callback t) as [l|] eqn:Hl.
  2:{ left. eexists. split; [|intros items']; rewrite Hgen0, Hgen, Hw;
        reflexivity. }
  destruct (callbacks w !! l) as [cb|] eqn:Hcb.
  2:{ left. eexists. split; [|intros items']; rewrite Hgen0, Hgen, Hw;
        reflexivity. }
  destruct (experiment cb) as [run|] eqn:Hrun.
  - right. right. exists run. intros items' c. now rewrite Hgen.
  - right. left. split; [now rewrite Hgen0, Hgen, Hw|].
    intros items' c. now rewrite Hgen.
Qed.

(** X11: in every world, [set_params] with a [dict] whose items are those
    of [d1] followed by those of [d2] does what [set_params] with [d1]
    followed by [set_params] with [d2] does: the same calls reach the
    run, in the same order, or the same exception is raised.  Parameters
    may so be attached in one call or in several. *)
Theorem set_params_in_parts :
  forall (w : World) (self : ref) (d1 d2 : list (PyVal * PyVal))
         (name : option PyVal),
    set_params self (PyDict (d1 ++ d2)) name w
    = (set_params self (PyDict d1) name;; set_params self (PyDict d2) name) w.
Proof.
  intros w self d1 d2 name. unfold mbind, M_bind, bind.
  assert (Hw : with_aim_calls (aim_calls w) w = w) by now destruct w.
  destruct (set_params_dict_cases w self d1 name)
    as [(e & E1 & Eall) | [(E1 & Eall) | (run & Eall)]].
  - now rewrite E1, Eall.
  - assert (Eall' : forall items',
               set_params self (PyDict items') name w = (w, Ok tt)).
    { intros items'. specialize (Eall items' (aim_calls w)).
      now rewrite Hw in Eall. }
    now rewrite !Eall'.
  - assert (Eall' : forall items',
               set_params self (PyDict items') name w
               = (with_aim_calls
                    (aim_calls w
                     ++ map (fun kv =>
                               RunSet run (default DEFAULT_NAME name, kv.1)
                                 kv.2 false) items') w,
                  Ok tt)).
    { intros items'. specialize (Eall items' (aim_calls w)).
      now rewrite Hw in Eall. }
    rewrite !Eall', Eall. now rewrite map_app, app_assoc.
Qed.

(** X12: in every world and for all arguments, whatever the outcome,
    [track] and [set_params] write no file, log nothing and change no
    callback and no tracker; all they do is add calls after those the
    Aim client has received, [track] at most one. *)
Theorem tracker_calls_touch_only_client :
  forall (w : World) (self : ref),
    (forall metric name stage,
        exists more,
          exec (track self metric name stage) w
          = with_aim_calls (aim_calls w ++ more) w
          /\ length more <= 1)
    /\ (forall params name,
           exists more,
             exec (set_params self params name) w
             = with_aim_calls (aim_calls w ++ more) w).
Proof.
  intros w self.
  assert (Hw : with_aim_calls (aim_calls w ++ []) w = w)
    by (rewrite app_nil_r; now destruct w).
  split.
  - intros metric name stage. unfold exec.
    destruct (is_None metric || is_None name) eqn:Hnone.
    + exists []. unfold track. rewrite Hnone. cbn [fst raise length].
      split; [now rewrite Hw | lia].
    + apply orb_false_iff in Hnone as [Hm Hn].
      apply is_None_false in Hm, Hn.
      rewrite track_valid by assumption.
      unfold get_attr_hf_callback, tracker_at, callback_at, aim.Run_track.
      munfold.
      destruct (trackers w !! self) as [t|];
        [|exists []; cbn; split; [now rewrite Hw | lia]].
      destruct (hf_callback t) as [l|];
        [|exists []; cbn; split; [now rewrite Hw | lia]].
      cbn. destruct (callbacks w !! l) as [cb|];
        [|exists []; cbn; split; [now rewrite Hw | lia]].
      destruct (experiment cb) as [run|];
        [|exists []; cbn; split; [now rewrite Hw | lia]].
      eexists [_]. cbn. split; [reflexivity | lia].
  - intros params name. unfold exec.
    destruct params as [| | | | | |items];
      try (exists []; cbn; now rewrite Hw).
    assert (Hw0 : with_aim_calls (aim_calls w) w = w) by now destruct w.
    destruct (set_params_dict_cases w self items name)
      as [(e & E1 & _) | [(E1 & _) | (run & Eall)]].
    + exists []. rewrite E1. cbn. now rewrite Hw.
    + exists []. rewrite E1. cbn. now rewrite Hw.
    + eexists. rewrite <- Hw0 at 1. rewrite Eall. reflexivity.
Qed.

(** ** The text of the export file *)

Lemma escape_plain_char c :
  plain_char c = true -> json.escape c = String c "".
Proof.
  destruct c as [[] [] [] [] [] [] [] []]; intros H;
    solve [reflexivity | discriminate H].
Qed.

Lemma escape_all_plain s : plain s = true -> json.escape_all s = s.
Proof.
  induction s as [|c s IH]; [reflexivity|].
  cbn [plain json.escape_all]. intros H.
  apply andb_true_iff in H as [Hc Hs].
  now rewrite (escape_plain_char c Hc), (IH Hs).
Qed.

Lemma dumps_run_hash_plain h :
  plain h = true ->
  json.dumps [("run_hash", h)]
  = "{" +:+ quoted "run_hash" +:+ ": " +:+ quoted h +:+ "}".
Proof.
  intros H. unfold json.dumps, json.encode_items, json.encode_item,
    json.encode_str, quoted.
  cbn [fst snd]. rewrite (escape_all_plain h H).
  rewrite (escape_all_plain "run_hash" eq_refl).
  now rewrite !string_app_assoc.
Qed.


